(** * The reconciliation loop of the cluster autoscaler

    A shallow embedding of [main] of the cluster autoscaler (package [main],
    the [for { select { case <-time.After(scanInterval): ... } } }] loop and
    the variables it keeps between iterations), together with the properties
    of the loop that its specification states.

    One iteration of the loop (a "tick") is a function of the variables the
    loop carries over and of the answers its collaborators give during that
    iteration.  The collaborators ([ScaleUp], [ScaleDown], the listers, ...)
    live in other files; they are taken as an interface, a record of
    functions over an opaque [World] that stands for everything outside the
    loop during one iteration (cluster, cloud provider, clock).

    [glog] output and the prometheus metrics ([updateLastTime],
    [updateDuration]) do not touch the variables of the loop and are left
    out; the wait on [time.After] between iterations is not modelled. *)

From Stdlib Require Import ZArith Lia.
From stdpp Require Import base option list strings gmap.

Local Open Scope Z_scope.

(** ** Time

    A [time.Time] is an instant, here a number of nanoseconds on one clock;
    a [time.Duration] is a signed number of nanoseconds. *)

Abbreviation Time := Z.
Abbreviation Duration := Z.

(** [t.Add(d)] *)
Definition Add (t : Time) (d : Duration) : Time := t + d.

(** [t.After(u)]: is [t] strictly later than [u]? *)
Definition After (t u : Time) : bool := u <? t.

Definition Second : Duration := 1000000000.
Definition Minute : Duration := 60 * Second.

(** The places of the loop body where [time.Now()] is read and the reading
    reaches a variable of the loop or an argument of a collaborator. *)
Inductive Site : Set :=
| AtScaledUp        (* lastScaleUpTime = time.Now() *)
| AtGateDelay       (* lastScaleUpTime.Add(scaleDownDelay).After(time.Now()) *)
| AtGateTrial       (* lastScaleDownFailedTrial.Add(scaleDownTrialInterval).After(time.Now()) *)
| AtCleanUp         (* usageTracker.CleanUp(time.Now().Add(-scaleDownUnneededTime)) *)
| AtFindUnneeded    (* FindUnneededNodes(..., usageTracker, time.Now()) *)
| AtFailedTrial.    (* lastScaleDownFailedTrial = time.Now() *)

(** The places in the order in which the loop body reaches them. *)
Definition sites : list Site :=
  [AtScaledUp; AtGateDelay; AtGateTrial; AtCleanUp; AtFindUnneeded; AtFailedTrial].

(** ** Results of the scale-down planner *)

(** Modelled from the spec: the declaration of the result type of
    [ScaleDown] is not part of the source, which only names the constants
    [ScaleDownError] and [ScaleDownNoNodeDeleted].  The specification lists
    the outcomes [Success], [NoNodeDeleted] (nothing ready) and [Error]. *)
Inductive ScaleDownResult : Set :=
| ScaleDownSuccess
| ScaleDownNoNodeDeleted
| ScaleDownError.

(** ** Calls that leave the loop

    The calls of one iteration that can change something outside the loop
    or that run a planner, in the order in which they are made.  The cloud
    provider is resized only from inside [ScaleUp] and [ScaleDown]. *)
Inductive Call : Set :=
| CallResetPodScheduledCondition
| CallScaleUp
| CallFindUnneededNodes    (* the classification pass *)
| CallScaleDown.           (* the action pass *)

#[global] Instance Call_eq_dec : EqDecision Call.
Proof. solve_decision. Defined.

(** Why an iteration was left through [continue]. *)
Inductive Reason : Set :=
| ListNodesFailed            (* "Failed to list nodes" *)
| NoNodes                    (* "No nodes in the cluster" *)
| NotReady                   (* "Cluster is not ready for autoscaling" *)
| ListUnschedulableFailed    (* "Failed to list unscheduled pods" *)
| ListScheduledFailed        (* "Failed to list scheduled pods" *)
| ScaleUpFailed              (* "Failed to scale up" *)
| ScaledUp.                  (* "No scale down in this iteration." *)

#[global] Instance Reason_eq_dec : EqDecision Reason.
Proof. solve_decision. Defined.

(** How a piece of the loop body ends: it runs on to the next statement
    with a value, or leaves the iteration. *)
Inductive Flow (A : Type) : Type :=
| Next (a : A)
| Continue (why : Reason).
Arguments Next {A} a.
Arguments Continue {A} why.

(** ** The collaborators of the loop

    Go's [(value, error)] results are pairs whose second component is
    [None] for a [nil] error.  [unneededNodes] is a [map[string]time.Time]
    and [podLocationHints] a [map[string]string]; Go maps and the usage
    tracker are passed by reference, so a callee that receives them hands
    back what they hold when it returns. *)
Record Collaborators : Type := {
  Node : Type;                 (* a kube_api.Node *)
  Pod : Type;                  (* a kube_api.Pod *)
  Error : Type;                (* a non-nil error *)
  Float64 : Type;              (* float64, only handed on *)
  UsageTracker : Type;         (* the simulator.UsageTracker *)
  World : Type;
  Now : World -> Site -> Time;
  nodeLister_List : World -> list Node * option Error;
  CheckGroupsAndNodes : World -> list Node -> option Error;
  unschedulablePodLister_List : World -> list Pod * option Error;
  scheduledPodLister_List : World -> list Pod * option Error;
  GetAllNodesAvailableTime : list Node -> Time;
  SlicePodsByPodScheduledTime : list Pod -> Time -> list Pod * list Pod;
  FilterOutSchedulable : World -> list Pod -> list Node -> list Pod -> list Pod;
  ScaleUp : World -> list Pod -> list Node -> bool * option Error;
  NewUsageTracker : UsageTracker;
  CleanUp : UsageTracker -> Time -> UsageTracker;
  FindUnneededNodes :
    World -> list Node -> gmap string Time -> Float64 -> list Pod ->
    gmap string string -> UsageTracker -> Time ->
    gmap string Time * gmap string string * UsageTracker;
  ScaleDown :
    World -> list Node -> gmap string Time -> Duration -> list Pod ->
    gmap string string -> UsageTracker ->
    (ScaleDownResult * option Error) *
    (gmap string Time * gmap string string * UsageTracker)
}.

Section Loop.
Context (X : Collaborators).

(** The command-line flags the loop reads. *)
Record Config : Type := {
  verifyUnschedulablePods : bool;
  scaleDownEnabled : bool;
  scaleDownDelay : Duration;
  scaleDownUnneededTime : Duration;
  scaleDownUtilizationThreshold : Float64 X;
  scaleDownTrialInterval : Duration;
  scanInterval : Duration
}.

(** The defaults of the flags, for a given reading of [0.5]. *)
Definition flag_defaults (half : Float64 X) : Config := {|
  verifyUnschedulablePods := true;
  scaleDownEnabled := true;
  scaleDownDelay := 10 * Minute;
  scaleDownUnneededTime := 10 * Minute;
  scaleDownUtilizationThreshold := half;
  scaleDownTrialInterval := 1 * Minute;
  scanInterval := 10 * Second
|}.

(** The variables of [main] that live across iterations. *)
Record LoopState : Type := {
  lastScaleUpTime : Time;
  lastScaleDownFailedTrial : Time;
  unneededNodes : gmap string Time;
  podLocationHints : gmap string string;
  usageTracker : UsageTracker X
}.

(** The declarations before the loop; [t1] and [t2] are the two readings of
    [time.Now()] taken there. *)
Definition init (t1 t2 : Time) : LoopState := {|
  lastScaleUpTime := t1;
  lastScaleDownFailedTrial := t2;
  unneededNodes := ∅;
  podLocationHints := ∅;
  usageTracker := NewUsageTracker X
|}.

Definition set_lastScaleUpTime (t : Time) (s : LoopState) : LoopState := {|
  lastScaleUpTime := t;
  lastScaleDownFailedTrial := lastScaleDownFailedTrial s;
  unneededNodes := unneededNodes s;
  podLocationHints := podLocationHints s;
  usageTracker := usageTracker s
|}.

Definition set_lastScaleDownFailedTrial (t : Time) (s : LoopState) : LoopState := {|
  lastScaleUpTime := lastScaleUpTime s;
  lastScaleDownFailedTrial := t;
  unneededNodes := unneededNodes s;
  podLocationHints := podLocationHints s;
  usageTracker := usageTracker s
|}.

Definition set_tracking
    (r : gmap string Time * gmap string string * UsageTracker X)
    (s : LoopState) : LoopState := {|
  lastScaleUpTime := lastScaleUpTime s;
  lastScaleDownFailedTrial := lastScaleDownFailedTrial s;
  unneededNodes := r.1.1;
  podLocationHints := r.1.2;
  usageTracker := r.2
|}.

(** ** One iteration as a computation

    An iteration threads the variables of the loop and the calls made so
    far, and either runs on ([Next], see [Flow]) or leaves through
    [continue]. *)
Record Iter : Type := {
  vars : LoopState;
  calls : list Call
}.

Definition Tick (A : Type) : Type := Iter -> Flow A * Iter.

#[global] Instance Tick_ret : MRet Tick := fun A a it => (Next a, it).

#[global] Instance Tick_bind : MBind Tick := fun A B f m it =>
  match m it with
  | (Next a, it') => f a it'
  | (Continue why, it') => (Continue why, it')
  end.

Definition continue {A} (why : Reason) : Tick A := fun it => (Continue why, it).

Definition call (c : Call) : Tick unit := fun it =>
  (Next (), {| vars := vars it; calls := calls it ++ [c] |}).

Definition get : Tick LoopState := fun it => (Next (vars it), it).

Definition modify (f : LoopState -> LoopState) : Tick unit := fun it =>
  (Next (), {| vars := f (vars it); calls := calls it |}).

Definition listed {A} (r : Reason + A) : Tick A :=
  match r with
  | inl why => continue why
  | inr a => mret a
  end.

(** ** What an iteration sees *)

Record Snapshot : Type := {
  nodes : list (Node X);
  allUnschedulablePods : list (Pod X);
  allScheduled : list (Pod X)
}.

(** The listing at the head of the loop body, from [nodeLister.List()] to
    [scheduledPodLister.List()]; each failure leaves the iteration. *)
Definition observe (w : World X) : Reason + Snapshot :=
  let '(nodes, err) := nodeLister_List X w in
  match err with
  | Some _ => inl ListNodesFailed
  | None =>
  if (length nodes =? 0)%nat then inl NoNodes else
  match CheckGroupsAndNodes X w nodes with
  | Some _ => inl NotReady
  | None =>
  let '(allUnschedulablePods, err) := unschedulablePodLister_List X w in
  match err with
  | Some _ => inl ListUnschedulableFailed
  | None =>
  let '(allScheduled, err) := scheduledPodLister_List X w in
  match err with
  | Some _ => inl ListScheduledFailed
  | None =>
    inr {| nodes := nodes;
           allUnschedulablePods := allUnschedulablePods;
           allScheduled := allScheduled |}
  end end end end.

Record Triage : Type := {
  podsToReset : list (Pod X);
  schedulablePodsPresent : bool;
  unschedulablePodsToHelp : list (Pod X)
}.

(** From [GetAllNodesAvailableTime] to the end of the
    [if verifyUnschedulablePods] block: which pods to reset, which pods
    are left to help, and whether the filter found schedulable ones. *)
Definition triage (cfg : Config) (w : World X) (snap : Snapshot) : Triage :=
  let allNodesAvailableTime := GetAllNodesAvailableTime X (nodes snap) in
  let '(podsToReset, unschedulablePodsToHelp) :=
    SlicePodsByPodScheduledTime X (allUnschedulablePods snap) allNodesAvailableTime in
  if verifyUnschedulablePods cfg then
    let newUnschedulablePodsToHelp :=
      FilterOutSchedulable X w unschedulablePodsToHelp (nodes snap) (allScheduled snap) in
    {| podsToReset := podsToReset;
       schedulablePodsPresent :=
         negb (length newUnschedulablePodsToHelp =? length unschedulablePodsToHelp)%nat;
       unschedulablePodsToHelp := newUnschedulablePodsToHelp |}
  else
    {| podsToReset := podsToReset;
       schedulablePodsPresent := false;
       unschedulablePodsToHelp := unschedulablePodsToHelp |}.

(** The three-way disjunction that decides whether only the unneeded nodes
    are calculated. *)
Definition calculateUnneededOnly
    (cfg : Config) (w : World X) (s : LoopState) (present : bool) : bool :=
  After (Add (lastScaleUpTime s) (scaleDownDelay cfg)) (Now X w AtGateDelay)
  || After (Add (lastScaleDownFailedTrial s) (scaleDownTrialInterval cfg))
           (Now X w AtGateTrial)
  || present.

(** The [if len(unschedulablePodsToHelp) == 0 ... else ...] block. *)
Definition scale_up (w : World X) (snap : Snapshot) (t : Triage) : Tick unit :=
  if (length (unschedulablePodsToHelp t) =? 0)%nat then mret ()
  else
    call CallScaleUp;;
    let '(scaledUp, err) := ScaleUp X w (unschedulablePodsToHelp t) (nodes snap) in
    match err with
    | Some _ => continue ScaleUpFailed
    | None =>
      if scaledUp then
        modify (set_lastScaleUpTime (Now X w AtScaledUp));;
        continue ScaledUp
      else mret ()
    end.

(** The classification pass on the variables [s]: the tracker is cleaned
    up, then [unneededNodes, podLocationHints = FindUnneededNodes(...)]. *)
Definition classify (cfg : Config) (w : World X) (snap : Snapshot) (s : LoopState)
    : LoopState :=
  let tracker :=
    CleanUp X (usageTracker s)
      (Add (Now X w AtCleanUp) (- scaleDownUnneededTime cfg)) in
  set_tracking
    (FindUnneededNodes X w (nodes snap) (unneededNodes s)
       (scaleDownUtilizationThreshold cfg) (allScheduled snap)
       (podLocationHints s) tracker (Now X w AtFindUnneeded))
    s.

(** The call [ScaleDown(nodes, unneededNodes, ...)] on the variables [s]. *)
Definition attempt (cfg : Config) (w : World X) (snap : Snapshot) (s : LoopState)
    : (ScaleDownResult * option (Error X)) *
      (gmap string Time * gmap string string * UsageTracker X) :=
  ScaleDown X w (nodes snap) (unneededNodes s) (scaleDownUnneededTime cfg)
    (allScheduled snap) (podLocationHints s) (usageTracker s).

(** The [if scaleDownEnabled] block. *)
Definition scale_down (cfg : Config) (w : World X) (snap : Snapshot) (t : Triage)
    : Tick unit :=
  if scaleDownEnabled cfg then
    s ← get;
    let unneededOnly := calculateUnneededOnly cfg w s (schedulablePodsPresent t) in
    call CallFindUnneededNodes;;
    modify (classify cfg w snap);;
    if negb unneededOnly then
      call CallScaleDown;;
      s ← get;
      let '(result, err, tracking) := attempt cfg w snap s in
      modify (set_tracking tracking);;
      match err with
      | Some _ => mret ()
      | None =>
        match result with
        | ScaleDownError | ScaleDownNoNodeDeleted =>
          modify (set_lastScaleDownFailedTrial (Now X w AtFailedTrial))
        | ScaleDownSuccess => mret ()
        end
      end
    else mret ()
  else mret ().

(** The body of the loop. *)
Definition tick (cfg : Config) (w : World X) : Tick unit :=
  snap ← listed (observe w);
  let t := triage cfg w snap in
  call CallResetPodScheduledCondition;;
  scale_up w snap t;;
  scale_down cfg w snap t.

(** One iteration from the variables [s], with no call made yet. *)
Definition run_tick (cfg : Config) (w : World X) (s : LoopState) : Flow unit * Iter :=
  tick cfg w {| vars := s; calls := [] |}.

Definition outcome (cfg : Config) (w : World X) (s : LoopState) : Flow unit :=
  (run_tick cfg w s).1.

Definition after_tick (cfg : Config) (w : World X) (s : LoopState) : LoopState :=
  vars (run_tick cfg w s).2.

Definition issued (cfg : Config) (w : World X) (s : LoopState) : list Call :=
  calls (run_tick cfg w s).2.

(** The loop over the iterations [ws], oldest first. *)
Definition loop (cfg : Config) (s : LoopState) (ws : list (World X)) : LoopState :=
  fold_left (fun s w => after_tick cfg w s) ws s.

(** ** The clock

    [ascending t0 ts]: the readings [ts] never go back and none is earlier
    than [t0]. *)
Fixpoint ascending (t0 : Time) (ts : list Time) : Prop :=
  match ts with
  | [] => True
  | t :: ts' => t0 <= t /\ ascending t ts'
  end.

(** The readings of one iteration, in the order of the loop body. *)
Definition readings (w : World X) : list Time := map (Now X w) sites.

(** The clock does not go back during the iterations [ws], which start
    no earlier than [t0]. *)
Definition chronological (t0 : Time) (ws : list (World X)) : Prop :=
  ascending t0 (concat (map readings ws)).

(** ** What the properties speak about *)

(** The flag [schedulablePodsPresent] of the iteration, [false] when the
    iteration is left before the flag is declared. *)
Definition present_in_tick (cfg : Config) (w : World X) : bool :=
  match observe w with
  | inr snap => schedulablePodsPresent (triage cfg w snap)
  | inl _ => false
  end.

(** The pods that come out of [SlicePodsByPodScheduledTime] as pods to
    help, before the filter. *)
Definition marked_unschedulable (snap : Snapshot) : list (Pod X) :=
  (SlicePodsByPodScheduledTime X (allUnschedulablePods snap)
     (GetAllNodesAvailableTime X (nodes snap))).2.

(** The filter runs and hands back fewer pods than it was given. *)
Definition filter_removes (cfg : Config) (w : World X) (snap : Snapshot) : Prop :=
  verifyUnschedulablePods cfg = true /\
  (length (FilterOutSchedulable X w (marked_unschedulable snap) (nodes snap)
             (allScheduled snap))
   < length (marked_unschedulable snap))%nat.

(** What [FilterOutSchedulable] is taken to be: a filter, whose result is
    its argument with some pods left out. *)
Definition filter_contract : Prop :=
  forall w pods nodes scheduled,
    sublist (FilterOutSchedulable X w pods nodes scheduled) pods.

(** One of the listings at the head of the iteration fails: an error from
    a lister, no node, or an error from the group check. *)
Definition listing_fails (w : World X) : Prop :=
  (nodeLister_List X w).2 <> None \/
  (nodeLister_List X w).1 = [] \/
  CheckGroupsAndNodes X w (nodeLister_List X w).1 <> None \/
  (unschedulablePodLister_List X w).2 <> None \/
  (scheduledPodLister_List X w).2 <> None.

(** The iteration gets to the scale-down block: scale-down is enabled, and
    either no pod is left to help or the scale-up planner came back without
    an error and without having scaled up. *)
Definition reaches_scale_down (cfg : Config) (w : World X) (snap : Snapshot) : Prop :=
  scaleDownEnabled cfg = true /\
  (unschedulablePodsToHelp (triage cfg w snap) = [] \/
   ScaleUp X w (unschedulablePodsToHelp (triage cfg w snap)) (nodes snap)
   = (false, None)).

(** Both timer gates of the action pass are open. *)
Definition timers_allow (cfg : Config) (w : World X) (s : LoopState) : Prop :=
  scaleDownDelay cfg <= Now X w AtGateDelay - lastScaleUpTime s /\
  scaleDownTrialInterval cfg <= Now X w AtGateTrial - lastScaleDownFailedTrial s.

(** The scale-down planner is kept for iterations that have no pod left
    to help, and an iteration with pods left to help goes to the scale-up
    planner instead. *)
Definition scale_down_only_when_satisfied
    (cfg : Config) (w : World X) (s : LoopState) : Prop :=
  forall snap, observe w = inr snap ->
    let pods := unschedulablePodsToHelp (triage cfg w snap) in
    (CallFindUnneededNodes ∈ issued cfg w s \/ CallScaleDown ∈ issued cfg w s ->
     pods = []) /\
    (pods <> [] ->
     CallScaleUp ∈ issued cfg w s /\
     (CallFindUnneededNodes ∉ issued cfg w s) /\
     (CallScaleDown ∉ issued cfg w s)).

(** A failed group check costs the node, not the iteration. *)
Definition failed_check_keeps_tick
    (cfg : Config) (w : World X) (s : LoopState) : Prop :=
  forall ns e,
    nodeLister_List X w = (ns, None) -> ns <> [] ->
    CheckGroupsAndNodes X w ns = Some e ->
    outcome cfg w s <> Continue NotReady.

End Loop.

(** ** A scripted cluster

    A small instance of the collaborators, where one iteration is a script
    of the answers it gets: nodes and pods are names, the clock is a table. *)
Module Demo.

Record Script : Type := {
  sc_nodes : list string * option string;
  sc_group : string -> option string;        (* NodeGroupForNode *)
  sc_unschedulable : list string * option string;
  sc_scheduled : list string * option string;
  sc_fits : string -> bool;                  (* pods some node accepts now *)
  sc_scale_up : bool * option string;
  sc_scale_down : ScaleDownResult * option string;
  sc_clock : Site -> Time
}.

(** Modelled from the spec: [CheckGroupsAndNodes] is not part of the
    source; the specification has the loop "verify every node belongs to a
    known group".  The check fails on the first node that the provider
    places in no group. *)
Definition check_groups (w : Script) (nodes : list string) : option string :=
  match List.filter (fun n => bool_decide (sc_group w n = None)) nodes with
  | [] => None
  | n :: _ => Some ("no node group for " +:+ n)
  end.

(** Modelled from the spec: [FilterOutSchedulable] is not part of the
    source; the specification removes from the unsatisfied set every pod
    that some current node accepts. *)
Definition filter_out_schedulable
    (w : Script) (pods nodes scheduled : list string) : list string :=
  List.filter (fun p => negb (sc_fits w p)) pods.

(** Every listed node is taken as unneeded, since when it first was. *)
Definition find_unneeded
    (w : Script) (nodes : list string) (unneeded : gmap string Time) (threshold : unit)
    (scheduled : list string) (hints : gmap string string) (tracker : unit) (now : Time)
    : gmap string Time * gmap string string * unit :=
  (foldr (fun n m => <[n := default now (unneeded !! n)]> m) ∅ nodes, hints, tracker).

Definition cluster : Collaborators := {|
  Node := string;
  Pod := string;
  Error := string;
  Float64 := unit;
  UsageTracker := unit;
  World := Script;
  Now := sc_clock;
  nodeLister_List := sc_nodes;
  CheckGroupsAndNodes := check_groups;
  unschedulablePodLister_List := sc_unschedulable;
  scheduledPodLister_List := sc_scheduled;
  GetAllNodesAvailableTime := fun _ => 0;
  SlicePodsByPodScheduledTime := fun pods _ => ([], pods);
  FilterOutSchedulable := filter_out_schedulable;
  ScaleUp := fun w _ _ => sc_scale_up w;
  NewUsageTracker := ();
  CleanUp := fun tracker _ => tracker;
  FindUnneededNodes := find_unneeded;
  ScaleDown := fun w _ unneeded _ _ hints tracker =>
    (sc_scale_down w, (unneeded, hints, tracker))
|}.

(** Flags: delay 600 s, trial interval 60 s, in seconds for legibility. *)
Definition flags (verify : bool) : Config cluster := {|
  verifyUnschedulablePods := verify;
  scaleDownEnabled := true;
  scaleDownDelay := 600;
  scaleDownUnneededTime := 600;
  scaleDownUtilizationThreshold := (() : Float64 cluster);
  scaleDownTrialInterval := 60;
  scanInterval := 10
|}.

(** A clock that reads [t], [t+1], ... at the places of one iteration. *)
Definition clock_from (t : Time) (site : Site) : Time :=
  match site with
  | AtScaledUp => t
  | AtGateDelay => t + 1
  | AtGateTrial => t + 2
  | AtCleanUp => t + 3
  | AtFindUnneeded => t + 4
  | AtFailedTrial => t + 5
  end.

(** A quiet iteration at time [t]: two grouped nodes, nothing pending,
    and a scale-down that deletes a node. *)
Definition quiet (t : Time) : Script := {|
  sc_nodes := (["n1"; "n2"], None);
  sc_group := fun _ => Some "pool";
  sc_unschedulable := ([], None);
  sc_scheduled := (["web"], None);
  sc_fits := fun _ => false;
  sc_scale_up := (false, None);
  sc_scale_down := (ScaleDownSuccess, None);
  sc_clock := clock_from t
|}.

(** As [quiet], with the pods [pods] marked unschedulable, of which [fits]
    would fit, and the given answer of the scale-up planner. *)
Definition pending (t : Time) (pods : list string) (fits : string -> bool)
    (up : bool * option string) : Script := {|
  sc_nodes := (["n1"; "n2"], None);
  sc_group := fun _ => Some "pool";
  sc_unschedulable := (pods, None);
  sc_scheduled := (["web"], None);
  sc_fits := fits;
  sc_scale_up := up;
  sc_scale_down := (ScaleDownSuccess, None);
  sc_clock := clock_from t
|}.

(** As [quiet], with the given answer of the scale-down planner. *)
Definition shrinking (t : Time) (down : ScaleDownResult * option string) : Script := {|
  sc_nodes := (["n1"; "n2"], None);
  sc_group := fun _ => Some "pool";
  sc_unschedulable := ([], None);
  sc_scheduled := (["web"], None);
  sc_fits := fun _ => false;
  sc_scale_up := (false, None);
  sc_scale_down := down;
  sc_clock := clock_from t
|}.

(** As [quiet], but the provider knows no group for node [n2]. *)
Definition stray_node (t : Time) : Script := {|
  sc_nodes := (["n1"; "n2"], None);
  sc_group := fun n => if bool_decide (n = "n2") then None else Some "pool";
  sc_unschedulable := ([], None);
  sc_scheduled := (["web"], None);
  sc_fits := fun _ => false;
  sc_scale_up := (false, None);
  sc_scale_down := (ScaleDownSuccess, None);
  sc_clock := clock_from t
|}.

(** The node lister fails. *)
Definition unreachable (t : Time) : Script := {|
  sc_nodes := ([], Some "connection refused");
  sc_group := fun _ => Some "pool";
  sc_unschedulable := ([], None);
  sc_scheduled := ([], None);
  sc_fits := fun _ => false;
  sc_scale_up := (false, None);
  sc_scale_down := (ScaleDownSuccess, None);
  sc_clock := clock_from t
|}.

(** The variables of the loop at a start-up at time [0]. *)
Definition start : LoopState cluster := init cluster 0 0.

(** What the iterations above list when [pods] are marked unschedulable. *)
Definition seen (pods : list string) : Snapshot cluster :=
  {| nodes := (["n1"; "n2"] : list (Node cluster));
     allUnschedulablePods := (pods : list (Pod cluster));
     allScheduled := (["web"] : list (Pod cluster)) |}.

Definition nothing_fits : string -> bool := fun _ => false.

End Demo.

(** * Around the loop

    The other functions of the two source files: the flag type of [main],
    and the paging methods of the [ListNetworks] request of egoscale. *)

(** How a call ends when it can dereference a nil pointer. *)
Inductive Run (A : Type) : Type :=
| Returned (a : A)
| Panicked.
Arguments Returned {A} a.
Arguments Panicked {A}.

(** ** [MultiStringFlag]

    [type MultiStringFlag []string]; both methods have a pointer receiver,
    [None] being the nil pointer.  [strings.Join] is [String.concat]. *)
Abbreviation MultiStringFlag := (list string).

(** [func (flag *MultiStringFlag) String() string] *)
Definition MultiStringFlag_String (flag : option MultiStringFlag) : Run string :=
  match flag with
  | None => Panicked
  | Some values => Returned ("[" +:+ String.concat " " values +:+ "]")
  end.

(** [func (flag *MultiStringFlag) Set(value string) error]: what the flag
    holds afterwards, and the error returned. *)
Definition MultiStringFlag_Set (flag : option MultiStringFlag) (value : string)
    : Run (MultiStringFlag * option string) :=
  match flag with
  | None => Panicked
  | Some values => Returned (values ++ [value], None)
  end.

(** The flag after one [Set] per value, in the order given, from the
    content [values0]; [None] as soon as a [Set] fails. *)
Fixpoint set_each (values0 : MultiStringFlag) (values : list string)
    : option MultiStringFlag :=
  match values with
  | [] => Some values0
  | v :: vs =>
    match MultiStringFlag_Set (Some values0) v with
    | Returned (values1, None) => set_each values1 vs
    | _ => None
    end
  end.

(** The character [c] occurs in [s]. *)
Fixpoint occurs (c : Ascii.ascii) (s : string) : bool :=
  match s with
  | String.EmptyString => false
  | String.String a s' => Ascii.eqb a c || occurs c s'
  end.

(** The separator of [String], as a character. *)
Definition space : Ascii.ascii := Ascii.ascii_of_nat 32.

(** A value that is not empty and has no space in it. *)
Definition plain (s : string) : Prop := s <> "" /\ occurs space s = false.

(** ** The [ListNetworks] request *)

(** The fields of [ListNetworks] the methods touch; its declaration is not
    part of the source, [F] stands for the fields it has besides. *)
Record ListNetworks (F : Type) : Type := {
  Page : Z;
  PageSize : Z;
  filters : F
}.
Arguments Page {F} _.
Arguments PageSize {F} _.
Arguments filters {F} _.

(** [ListNetworksResponse], with [N] for the type of a network. *)
Record ListNetworksResponse (N : Type) : Type := {
  Count : Z;
  Network : list N
}.
Arguments Count {N} _.
Arguments Network {N} _.

(** An [interface{}] value as [Each] tells them apart: the nil interface,
    a [*ListNetworksResponse] (maybe a nil pointer), or a value of another
    type, of which [%T] prints the name. *)
Inductive Interface (N : Type) : Type :=
| NilInterface
| ResponsePtr (p : option (ListNetworksResponse N))
| OtherValue (type_name : string).
Arguments NilInterface {N}.
Arguments ResponsePtr {N} p.
Arguments OtherValue {N} type_name.

(** What [%T] prints. *)
Definition type_name_of {N} (resp : Interface N) : string :=
  match resp with
  | NilInterface => "<nil>"
  | ResponsePtr _ => "*egoscale.ListNetworksResponse"
  | OtherValue name => name
  end.

(** [func (ListNetworks) Response() interface{}]: a new, zero response. *)
Definition ListNetworks_Response {N} : Interface N :=
  ResponsePtr (Some {| Count := 0; Network := [] |}).

(** [func (ls *ListNetworks) ListRequest() (ListCommand, error)] *)
Definition ListNetworks_ListRequest {F} (ls : option (ListNetworks F))
    : option (ListNetworks F) * option string :=
  match ls with
  | None => (None, Some "*egoscale.ListNetworks cannot be nil")
  | Some _ => (ls, None)
  end.

(** [func (ls *ListNetworks) SetPage(page int)]: the request afterwards. *)
Definition ListNetworks_SetPage {F} (ls : option (ListNetworks F)) (page : Z)
    : Run (ListNetworks F) :=
  match ls with
  | None => Panicked
  | Some r => Returned {| Page := page; PageSize := PageSize r; filters := filters r |}
  end.

(** [func (ls *ListNetworks) SetPageSize(pageSize int)] *)
Definition ListNetworks_SetPageSize {F} (ls : option (ListNetworks F)) (pageSize : Z)
    : Run (ListNetworks F) :=
  match ls with
  | None => Panicked
  | Some r => Returned {| Page := Page r; PageSize := pageSize; filters := filters r |}
  end.

(** The two ways [Each] calls its callback.  An item is handed over by
    address, [&items.Network[i]]; [Each] does not read it. *)
Inductive Invocation : Set :=
| ItemAt (i : nat)           (* callback(&items.Network[i], nil) *)
| Failure (err : string).    (* callback(nil, err) *)

(** An [IterateItemFunc]: a closure over a state [St], which answers
    whether to go on. *)
Definition IterateItemFunc (St : Type) : Type := Invocation -> St -> bool * St.

(** [for i := range items.Network { if !callback(...) { break } }], at
    index [i] with [remaining] items to go. *)
Fixpoint iterate {St} (callback : IterateItemFunc St) (i remaining : nat) (s : St) : St :=
  match remaining with
  | O => s
  | S k =>
    let '(more, s') := callback (ItemAt i) s in
    if more then iterate callback (S i) k s' else s'
  end.

(** [func (ListNetworks) Each(resp interface{}, callback IterateItemFunc)] *)
Definition ListNetworks_Each {N St} (resp : Interface N) (callback : IterateItemFunc St)
    (s : St)   : Run St :=
  match resp with
  | ResponsePtr (Some items) =>
    Returned (iterate callback 0 (length (Network items)) s)
  | ResponsePtr None => Panicked
  | _ =>
    Returned
      (callback
         (Failure ("wrong type, ListNetworksResponse was expected, got "
                   +:+ type_name_of resp)) s).2
  end.

(** A callback that also keeps a record of how it was called and what it
    answered. *)
Definition recording {St} (callback : IterateItemFunc St)
    : IterateItemFunc (St * list (Invocation * bool)) :=
  fun inv '(s, log) =>
    let '(more, s') := callback inv s in
    (more, (s', log ++ [(inv, more)])).

(** The calls [Each] makes to [callback] from the state [s]. *)
Definition invocations {N St} (resp : Interface N) (callback : IterateItemFunc St) (s : St)
    : list (Invocation * bool) :=
  match ListNetworks_Each resp (recording callback) (s, []) with
  | Returned (_, log) => log
  | Panicked => []
  end.

(** ** The metrics of an iteration

    The loop body once more, this time with the updates of the prometheus
    metrics that [updateLastTime] and [updateDuration] make, in the order
    of the source.  The values written, readings of the clock as floats,
    are left out: an update is known by its metric, its label and the time
    mark it measures from. *)

(** The time marks an iteration takes ([loopStart := time.Now()], ...). *)
Inductive Mark : Set :=
| loopStart
| scaleUpStart
| unneededStart
| scaleDownStart.

Inductive Metric : Set :=
| SetLastTimestamp (label : string)
    (* lastTimestamp.WithLabelValues(label).Set(...) *)
| ObserveDuration (label : string) (start : Mark)
    (* duration.WithLabelValues(label).Observe(durationToMicro(start)) *)
| SetLastDuration (label : string) (start : Mark).
    (* lastDuration.WithLabelValues(label).Set(durationToMicro(start)) *)

(** [func updateDuration(label string, start time.Time)] *)
Definition updateDuration (label : string) (start : Mark) : list Metric :=
  [ObserveDuration label start; SetLastDuration label start].

(** [func updateLastTime(label string)] *)
Definition updateLastTime (label : string) : list Metric :=
  [SetLastTimestamp label].

(** What an iteration does that can be seen from outside, in order: the
    calls of [Call], the clean-up of the usage tracker, and the updates of
    the metrics.  Readings of the clock and [glog] output are no events. *)
Inductive Event : Set :=
| Outgoing (c : Call)
| CleanedUp                  (* usageTracker.CleanUp(...) *)
| Measured (m : Metric).

(** The calls among the events. *)
Definition outgoing (events : list Event) : list Call :=
  omap (fun e => match e with Outgoing c => Some c | _ => None end) events.

(** The metric updates among the events. *)
Definition measured (events : list Event) : list Metric :=
  omap (fun e => match e with Measured m => Some m | _ => None end) events.

(** What the loop does between the time stamp of a planner and its call:
    the usage tracker is cleaned up before the classification pass. *)
Definition preparation (c : Call) : list Event :=
  match c with
  | CallFindUnneededNodes => [CleanedUp]
  | _ => []
  end.

(** The label and the time mark under which a planner is measured. *)
Definition label_of (c : Call) : option (string * Mark) :=
  match c with
  | CallResetPodScheduledCondition => None
  | CallScaleUp => Some ("scaleup", scaleUpStart)
  | CallFindUnneededNodes => Some ("findUnneeded", unneededStart)
  | CallScaleDown => Some ("scaledown", scaleDownStart)
  end.

Section Metered.
Context (X : Collaborators).

Record Gauged : Type := {
  g_vars : LoopState X;
  g_events : list Event
}.

Definition Metering (A : Type) : Type := Gauged -> Flow A * Gauged.

#[global] Instance Metering_ret : MRet Metering := fun A a g => (Next a, g).

#[global] Instance Metering_bind : MBind Metering := fun A B f m g =>
  match m g with
  | (Next a, g') => f a g'
  | (Continue why, g') => (Continue why, g')
  end.

Definition leave {A} (why : Reason) : Metering A := fun g => (Continue why, g).

Definition emit (c : Call) : Metering unit := fun g =>
  (Next (), {| g_vars := g_vars g; g_events := g_events g ++ [Outgoing c] |}).

Definition clean_up : Metering unit := fun g =>
  (Next (), {| g_vars := g_vars g; g_events := g_events g ++ [CleanedUp] |}).

Definition measure (ms : list Metric) : Metering unit := fun g =>
  (Next (), {| g_vars := g_vars g; g_events := g_events g ++ map Measured ms |}).

Definition read : Metering (LoopState X) := fun g => (Next (g_vars g), g).

Definition update (f : LoopState X -> LoopState X) : Metering unit := fun g =>
  (Next (), {| g_vars := f (g_vars g); g_events := g_events g |}).

Definition seen_or_leave {A} (r : Reason + A) : Metering A :=
  match r with
  | inl why => leave why
  | inr a => mret a
  end.

(** The body of the loop, metrics included. *)
Definition metered_tick (cfg : Config X) (w : World X) : Metering unit :=
  (* loopStart := time.Now() *)
  measure (updateLastTime "main");;
  snap ← seen_or_leave (observe X w);
  let t := triage X cfg w snap in
  emit CallResetPodScheduledCondition;;
  (if (length (unschedulablePodsToHelp X t) =? 0)%nat then mret ()
   else
     (* scaleUpStart := time.Now() *)
     measure (updateLastTime "scaleup");;
     emit CallScaleUp;;
     let '(scaledUp, err) :=
       ScaleUp X w (unschedulablePodsToHelp X t) (nodes X snap) in
     measure (updateDuration "scaleup" scaleUpStart);;
     match err with
     | Some _ => leave ScaleUpFailed
     | None =>
       if scaledUp then
         update (set_lastScaleUpTime X (Now X w AtScaledUp));;
         leave ScaledUp
       else mret ()
     end);;
  (if scaleDownEnabled X cfg then
     (* unneededStart := time.Now() *)
     s ← read;
     let unneededOnly :=
       calculateUnneededOnly X cfg w s (schedulablePodsPresent X t) in
     measure (updateLastTime "findUnneeded");;
     clean_up;;
     emit CallFindUnneededNodes;;
     update (classify X cfg w snap);;
     measure (updateDuration "findUnneeded" unneededStart);;
     if negb unneededOnly then
       (* scaleDownStart := time.Now() *)
       measure (updateLastTime "scaledown");;
       emit CallScaleDown;;
       s ← read;
       let '(result, err, tracking) := attempt X cfg w snap s in
       update (set_tracking X tracking);;
       measure (updateDuration "scaledown" scaleDownStart);;
       match err with
       | Some _ => mret ()
       | None =>
         match result with
         | ScaleDownError | ScaleDownNoNodeDeleted =>
           update (set_lastScaleDownFailedTrial X (Now X w AtFailedTrial))
         | ScaleDownSuccess => mret ()
         end
       end
     else mret ()
   else mret ());;
  measure (updateDuration "main" loopStart).

Definition run_metered (cfg : Config X) (w : World X) (s : LoopState X)
    : Flow unit * Gauged :=
  metered_tick cfg w {| g_vars := s; g_events := [] |}.

(** The events of one iteration from the variables [s]. *)
Definition events (cfg : Config X) (w : World X) (s : LoopState X) : list Event :=
  g_events (run_metered cfg w s).2.

End Metered.

(** ** Start-up

    [main] before the loop: the clients, then the cloud provider chosen by
    the flag [--cloud-provider].  [glog.Fatalf] ends the process; what it
    is given is kept as the format and the arguments.  The metrics server
    runs on a goroutine of its own and is left out, as are the listers,
    the event recorder and the variables of the loop (see [init]). *)

(** What start-up calls, as an interface. *)
Record Platform : Type := {
  URL : Type;
  KubeConfig : Type;
  KubeClient : Type;
  PredicateChecker : Type;
  File : Type;
  GceManager : Type;
  AwsManager : Type;
  CloudProvider : Type;
  Fault : Type;                (* a non-nil error *)
  url_Parse : string -> URL * option Fault;
  config_GetKubeClientConfig : URL -> KubeConfig * option Fault;
  kube_client_NewOrDie : KubeConfig -> option KubeClient;    (* [None]: it dies *)
  simulator_NewPredicateChecker : KubeClient -> PredicateChecker * option Fault;
  os_Open : string -> File * option Fault;
  gce_CreateGceManager : option File -> GceManager * option Fault;
  gce_BuildGceCloudProvider :
    GceManager -> MultiStringFlag -> CloudProvider * option Fault;
  aws_CreateAwsManager : option File -> AwsManager * option Fault;
  aws_BuildAwsCloudProvider :
    AwsManager -> MultiStringFlag -> CloudProvider * option Fault
}.

(** The flags start-up reads, after [flag.Parse()]. *)
Record Flags : Type := {
  kubernetes : string;
  cloudConfig : string;
  cloudProviderFlag : string;
  nodeGroupsFlag : MultiStringFlag
}.

(** What start-up does about the cloud, in order. *)
Inductive Step : Set :=
| OpenedFile (path : string)           (* os.Open(cloudConfig) *)
| MadeGceManager (from_file : bool)    (* gce.CreateGceManager(config) or (nil) *)
| BuiltGceProvider                     (* gce.BuildGceCloudProvider(...) *)
| MadeAwsManager (from_file : bool)    (* aws.CreateAwsManager(config) or (nil) *)
| BuiltAwsProvider.                    (* aws.BuildAwsCloudProvider(...) *)

(** The steps the flags ask for. *)
Definition plan (fl : Flags) : list Step :=
  let from_file := negb (bool_decide (cloudConfig fl = "")) in
  let opening := if from_file then [OpenedFile (cloudConfig fl)] else [] in
  (if bool_decide (cloudProviderFlag fl = "gce")
   then opening ++ [MadeGceManager from_file; BuiltGceProvider] else []) ++
  (if bool_decide (cloudProviderFlag fl = "aws")
   then opening ++ [MadeAwsManager from_file; BuiltAwsProvider] else []).

(** The formats of the fatal messages that are given the variable [err]
    while the error at hand is in [fileErr], [gceError] or [awsError]. *)
Definition formats_without_cause : list string :=
  ["Couldn't open cloud provider configuration %s: %#v";
   "Failed to create GCE Manager: %v";
   "Failed to create AWS Manager: %v"].

Section Startup.
Context (P : Platform).

(** An argument of a [glog.Fatalf]. *)
Inductive Shown : Type :=
| ShownString (s : string)
| ShownError (err : option (Fault P)).

(** How start-up ends early. *)
Inductive Exit : Type :=
| Fatal (format : string) (args : list Shown)    (* glog.Fatalf(format, args...) *)
| Died.                                          (* inside kube_client.NewOrDie *)

(** What the loop starts with. *)
Record Ready : Type := {
  kubeClient : KubeClient P;
  predicateChecker : PredicateChecker P;
  cloudProvider : option (CloudProvider P)     (* [None]: a nil interface *)
}.

Definition Boot (A : Type) : Type := list Step -> (Exit + A) * list Step.

#[global] Instance Boot_ret : MRet Boot := fun A a log => (inr a, log).

#[global] Instance Boot_bind : MBind Boot := fun A B f m log =>
  match m log with
  | (inr a, log') => f a log'
  | (inl exit, log') => (inl exit, log')
  end.

Definition did (step : Step) : Boot unit := fun log => (inr (), log ++ [step]).

(** [if err != nil { glog.Fatalf(format, args...) }] *)
Definition fatal_on (err : option (Fault P)) (format : string) (args : list Shown)
    : Boot unit :=
  fun log =>
    match err with
    | Some _ => (inl (Fatal format args), log)
    | None => (inr (), log)
    end.

Definition or_die {A} (r : option A) : Boot A := fun log =>
  match r with
  | Some a => (inr a, log)
  | None => (inl Died, log)
  end.

(** [main] from [url.Parse] to the last statement before the loop. *)
Definition startup (fl : Flags) : Boot Ready :=
  let '(url, err) := url_Parse P (kubernetes fl) in
  fatal_on err "Failed to parse Kuberentes url: %v" [ShownError err];;
  let '(kubeConfig, err) := config_GetKubeClientConfig P url in
  fatal_on err "Failed to build Kuberentes client configuration: %v" [ShownError err];;
  kubeClient ← or_die (kube_client_NewOrDie P kubeConfig);
  let '(predicateChecker, err) := simulator_NewPredicateChecker P kubeClient in
  fatal_on err "Failed to create predicate checker: %v" [ShownError err];;
  (* var cloudProvider cloudprovider.CloudProvider *)
  '(cloudProvider, err) ←
    (if bool_decide (cloudProviderFlag fl = "gce") then
       '(gceManager, gceError) ←
         (if negb (bool_decide (cloudConfig fl = "")) then
            did (OpenedFile (cloudConfig fl));;
            let '(config, fileErr) := os_Open P (cloudConfig fl) in
            fatal_on fileErr "Couldn't open cloud provider configuration %s: %#v"
              [ShownString (cloudConfig fl); ShownError err];;
            did (MadeGceManager true);;
            mret (gce_CreateGceManager P (Some config))
          else
            did (MadeGceManager false);;
            mret (gce_CreateGceManager P None));
       fatal_on gceError "Failed to create GCE Manager: %v" [ShownError err];;
       did BuiltGceProvider;;
       let '(provider, err) :=
         gce_BuildGceCloudProvider P gceManager (nodeGroupsFlag fl) in
       fatal_on err "Failed to create GCE cloud provider: %v" [ShownError err];;
       mret (Some provider, err)
     else mret (None, err));
  '(cloudProvider, err) ←
    (if bool_decide (cloudProviderFlag fl = "aws") then
       '(awsManager, awsError) ←
         (if negb (bool_decide (cloudConfig fl = "")) then
            did (OpenedFile (cloudConfig fl));;
            let '(config, fileErr) := os_Open P (cloudConfig fl) in
            fatal_on fileErr "Couldn't open cloud provider configuration %s: %#v"
              [ShownString (cloudConfig fl); ShownError err];;
            did (MadeAwsManager true);;
            mret (aws_CreateAwsManager P (Some config))
          else
            did (MadeAwsManager false);;
            mret (aws_CreateAwsManager P None));
       fatal_on awsError "Failed to create AWS Manager: %v" [ShownError err];;
       did BuiltAwsProvider;;
       let '(provider, err) :=
         aws_BuildAwsCloudProvider P awsManager (nodeGroupsFlag fl) in
       fatal_on err "Failed to create AWS cloud provider: %v" [ShownError err];;
       mret (Some provider, err)
     else mret (cloudProvider, err));
  mret {| kubeClient := kubeClient;
          predicateChecker := predicateChecker;
          cloudProvider := cloudProvider |}.

(** Start-up from nothing done yet. *)
Definition boot (fl : Flags) : (Exit + Ready) * list Step := startup fl [].

End Startup.

Arguments ShownString {P} s.
Arguments ShownError {P} err.
Arguments Fatal {P} format args.
Arguments Died {P}.

(** ** Samples for the rest *)
Module Sample.

(** The flags of [Demo.flags], with scale-down switched off. *)
Definition flags_off : Config Demo.cluster := {|
  verifyUnschedulablePods := true;
  scaleDownEnabled := false;
  scaleDownDelay := 600;
  scaleDownUnneededTime := 600;
  scaleDownUtilizationThreshold := (() : Float64 Demo.cluster);
  scaleDownTrialInterval := 60;
  scanInterval := 10
|}.

(** A callback that counts its calls and accepts them all. *)
Definition count_all : IterateItemFunc nat := fun _ n => (true, S n).

(** A callback that counts its calls and turns down the second. *)
Definition stop_at_second : IterateItemFunc nat := fun _ n => ((n <? 1)%nat, S n).

Definition three_networks : ListNetworksResponse string :=
  {| Count := 3; Network := ["a"; "b"; "c"] |}.

(** A platform where everything works but what is named otherwise: the
    url [::], the file [/missing], and the node group [0:0:broken]. *)
Definition platform : Platform := {|
  URL := string;
  KubeConfig := string;
  KubeClient := string;
  PredicateChecker := unit;
  File := string;
  GceManager := option string;
  AwsManager := option string;
  CloudProvider := string * list string;
  Fault := string;
  url_Parse := fun s =>
    (s, if bool_decide (s = "::") then Some "missing protocol scheme" else None);
  config_GetKubeClientConfig := fun url => (url, None);
  kube_client_NewOrDie := fun cfg => Some cfg;
  simulator_NewPredicateChecker := fun _ => ((), None);
  os_Open := fun path =>
    (path, if bool_decide (path = "/missing") then Some "no such file" else None);
  gce_CreateGceManager := fun file => (file, None);
  gce_BuildGceCloudProvider := fun _ groups =>
    (("gce", groups),
     if bool_decide ("0:0:broken" ∈ groups) then Some "wrong node group" else None);
  aws_CreateAwsManager := fun file => (file, None);
  aws_BuildAwsCloudProvider := fun _ groups =>
    (("aws", groups),
     if bool_decide ("0:0:broken" ∈ groups) then Some "wrong node group" else None)
|}.

Definition flags_for (provider config : string) (groups : list string) : Flags := {|
  kubernetes := "";
  cloudConfig := config;
  cloudProviderFlag := provider;
  nodeGroupsFlag := groups
|}.

(** What start-up hands to the loop on this platform. *)
Definition ready_with (provider : option (string * list string)) : Ready platform :=
  Build_Ready platform ("" : KubeClient platform) (() : PredicateChecker platform)
    (provider : option (CloudProvider platform)).

End Sample.

(** * Properties of the loop *)

Section Properties.
Context (X : Collaborators).

Implicit Types (cfg : Config X) (w : World X) (s : LoopState X) (snap : Snapshot X).

Ltac run_body :=
  unfold issued, after_tick, outcome, run_tick, tick, scale_up, scale_down,
    listed, call, modify, get, continue;
  unfold mbind, mret, Tick_bind, Tick_ret.

(** Split on every branch the loop body takes. *)
Ltac branches :=
  repeat (case_match; simplify_eq/=);
  rewrite ?negb_true_iff, ?negb_false_iff in *.

(** Membership of a call in an explicit list of calls. *)
Ltac among_calls :=
  simpl; rewrite ?elem_of_cons, ?elem_of_nil;
  intuition (try discriminate; try congruence).

(** ** The gates *)

Lemma After_Add_false (t : Time) (d : Duration) (now : Time) :
  After (Add t d) now = false <-> d <= now - t.
Proof. unfold After, Add. rewrite Z.ltb_ge. lia. Qed.

Lemma calculateUnneededOnly_false cfg w s (present : bool) :
  calculateUnneededOnly X cfg w s present = false <->
  timers_allow X cfg w s /\ present = false.
Proof.
  unfold calculateUnneededOnly, timers_allow.
  rewrite !orb_false_iff, !After_Add_false. tauto.
Qed.

(** ** One iteration, case by case *)

Lemma run_tick_left cfg w s why :
  observe X w = inl why ->
  run_tick X cfg w s = (Continue why, {| vars := s; calls := [] |}).
Proof. intros H. run_body. rewrite H. reflexivity. Qed.

Lemma action_iff cfg w s :
  CallScaleDown ∈ issued X cfg w s <->
  CallFindUnneededNodes ∈ issued X cfg w s /\
  timers_allow X cfg w s /\ present_in_tick X cfg w = false.
Proof.
  rewrite <- calculateUnneededOnly_false.
  unfold present_in_tick. run_body.
  destruct (observe X w) as [why|snap]; simpl.
  { among_calls. }
  branches; among_calls.
Qed.

(** The action pass is only ever made after the classification pass of the
    same iteration. *)
Lemma action_after_classification cfg w s :
  CallScaleDown ∈ issued X cfg w s -> CallFindUnneededNodes ∈ issued X cfg w s.
Proof. rewrite action_iff. tauto. Qed.

(** What one iteration can do to the two timers. *)
Lemma lastScaleUpTime_step cfg w s :
  lastScaleUpTime X (after_tick X cfg w s) = lastScaleUpTime X s \/
  (outcome X cfg w s = Continue ScaledUp /\
   lastScaleUpTime X (after_tick X cfg w s) = Now X w AtScaledUp).
Proof.
  run_body. destruct (observe X w) as [why|snap]; simpl; [by left|].
  branches; auto.
Qed.

Lemma lastScaleDownFailedTrial_step cfg w s :
  lastScaleDownFailedTrial X (after_tick X cfg w s) = lastScaleDownFailedTrial X s \/
  (CallScaleDown ∈ issued X cfg w s /\
   lastScaleDownFailedTrial X (after_tick X cfg w s) = Now X w AtFailedTrial).
Proof.
  run_body. destruct (observe X w) as [why|snap]; simpl; [by left|].
  branches; auto; right; among_calls.
Qed.

Lemma scaled_up_sets_time cfg w s :
  outcome X cfg w s = Continue ScaledUp ->
  lastScaleUpTime X (after_tick X cfg w s) = Now X w AtScaledUp.
Proof.
  run_body. destruct (observe X w) as [why|snap] eqn:E; simpl.
  { intros [= ->]. unfold observe in E. branches. }
  branches; intros; simplify_eq; auto.
Qed.

(** ** The clock over several iterations *)

Lemma ascending_weaken (t0 t0' : Time) (ts : list Time) :
  t0' <= t0 -> ascending t0 ts -> ascending t0' ts.
Proof. destruct ts; simpl; [done|]. intros ? [? ?]. split; [lia|done]. Qed.

Lemma ascending_app_l (ts us : list Time) :
  forall t0, ascending t0 (ts ++ us) -> ascending t0 ts.
Proof. induction ts as [|t ts IH]; simpl; [done|]. intros t0 [? ?]. eauto. Qed.

Lemma ascending_app_r (ts us : list Time) :
  forall t0, ascending t0 (ts ++ us) -> ascending t0 us.
Proof.
  induction ts as [|t ts IH]; simpl; [done|].
  intros t0 [? ?]. apply ascending_weaken with t; [lia|]. by apply IH.
Qed.

Lemma chronological_app_l t0 (ws vs : list (World X)) :
  chronological X t0 (ws ++ vs) -> chronological X t0 ws.
Proof.
  unfold chronological. rewrite map_app, concat_app. apply ascending_app_l.
Qed.

(** Every reading of the first iteration lies between the start and the
    time from which the other iterations are chronological. *)
Lemma chronological_head t0 w (ws : list (World X)) :
  chronological X t0 (w :: ws) ->
  (forall site, t0 <= Now X w site) /\
  exists t1, (forall site, Now X w site <= t1) /\ chronological X t1 ws.
Proof.
  unfold chronological. simpl. intros (?&?&?&?&?&?&?). split.
  - intros []; lia.
  - exists (Now X w AtFailedTrial). split; [intros []; lia | done].
Qed.

(** A timer that an iteration either keeps or sets to one of its readings
    never goes back while the clock does not. *)
Lemma timer_monotone cfg (timer : LoopState X -> Time) :
  (forall w s, timer (after_tick X cfg w s) = timer s \/
               exists site, timer (after_tick X cfg w s) = Now X w site) ->
  forall ws t0 s,
    timer s <= t0 -> chronological X t0 ws ->
    timer s <= timer (loop X cfg s ws).
Proof.
  intros Hstep ws. induction ws as [|w ws IH]; intros t0 s Hs Hws; simpl.
  { unfold loop. simpl. lia. }
  apply chronological_head in Hws as (Hlo & t1 & Hhi & Hws).
  change (loop X cfg s (w :: ws)) with (loop X cfg (after_tick X cfg w s) ws).
  assert (timer s <= timer (after_tick X cfg w s) <= t1) as [? ?].
  { destruct (Hstep w s) as [->|[site ->]].
    - pose proof (Hlo AtScaledUp). pose proof (Hhi AtScaledUp). lia.
    - pose proof (Hlo site). pose proof (Hhi site). lia. }
  etrans; [eassumption|]. by apply IH with t1.
Qed.

Lemma lastScaleUpTime_monotone cfg ws t0 s :
  lastScaleUpTime X s <= t0 -> chronological X t0 ws ->
  lastScaleUpTime X s <= lastScaleUpTime X (loop X cfg s ws).
Proof.
  apply timer_monotone. intros w s'.
  destruct (lastScaleUpTime_step cfg w s') as [?|[_ ?]]; eauto.
Qed.

Lemma lastScaleDownFailedTrial_monotone cfg ws t0 s :
  lastScaleDownFailedTrial X s <= t0 -> chronological X t0 ws ->
  lastScaleDownFailedTrial X s <= lastScaleDownFailedTrial X (loop X cfg s ws).
Proof.
  apply timer_monotone. intros w s'.
  destruct (lastScaleDownFailedTrial_step cfg w s') as [?|[_ ?]]; eauto.
Qed.

(** After a chronological run, the timer is not later than the time from
    which the rest of the run is chronological. *)
Lemma timer_bounded cfg (timer : LoopState X -> Time) :
  (forall w s, timer (after_tick X cfg w s) = timer s \/
               exists site, timer (after_tick X cfg w s) = Now X w site) ->
  forall ws vs t0 s,
    timer s <= t0 -> chronological X t0 (ws ++ vs) ->
    exists t1, timer (loop X cfg s ws) <= t1 /\ chronological X t1 vs.
Proof.
  intros Hstep ws. induction ws as [|w ws IH]; intros vs t0 s Hs Hws.
  { exists t0. done. }
  simpl in Hws. apply chronological_head in Hws as (Hlo & t1 & Hhi & Hws).
  change (loop X cfg s (w :: ws)) with (loop X cfg (after_tick X cfg w s) ws).
  apply IH with t1; [|done].
  destruct (Hstep w s) as [->|[site ->]]; [|done].
  pose proof (Hlo AtScaledUp). pose proof (Hhi AtScaledUp). lia.
Qed.

Lemma loop_app cfg s (ws vs : list (World X)) :
  loop X cfg s (ws ++ vs) = loop X cfg (loop X cfg s ws) vs.
Proof. unfold loop. apply fold_left_app. Qed.

(** The classification pass is made exactly in the iterations that get to
    the scale-down block. *)
Lemma classification_iff cfg w s snap :
  observe X w = inr snap ->
  CallFindUnneededNodes ∈ issued X cfg w s <-> reaches_scale_down X cfg w snap.
Proof.
  intros Hobs. unfold reaches_scale_down. run_body. rewrite Hobs. simpl.
  destruct (unschedulablePodsToHelp X (triage X cfg w snap)) as [|p ps]; simpl.
  - branches; among_calls.
  - branches; among_calls.
Qed.

Lemma classification_needs_listing cfg w s :
  CallFindUnneededNodes ∈ issued X cfg w s -> exists snap, observe X w = inr snap.
Proof.
  destruct (observe X w) as [why|snap] eqn:Hobs; [|eauto].
  unfold issued. rewrite (run_tick_left cfg w s why Hobs). simpl. among_calls.
Qed.

(** The calls up to the classification pass when the scale-up planner was
    asked and did nothing. *)
Lemma fall_through_calls cfg w s snap :
  observe X w = inr snap ->
  scaleDownEnabled X cfg = true ->
  unschedulablePodsToHelp X (triage X cfg w snap) <> [] ->
  ScaleUp X w (unschedulablePodsToHelp X (triage X cfg w snap)) (nodes X snap)
    = (false, None) ->
  exists rest,
    issued X cfg w s =
    CallResetPodScheduledCondition :: CallScaleUp :: CallFindUnneededNodes :: rest.
Proof.
  intros Hobs Hon. run_body. rewrite Hobs, Hon. simpl.
  destruct (unschedulablePodsToHelp X (triage X cfg w snap)) as [|p ps]; [done|].
  intros _ ->. simpl. branches; eauto.
Qed.

(** ** The claims *)

(** Claim C1.  An iteration gets to the scale-down block when its listing
    succeeds, scale-down is enabled, and no pod is left to help or the
    scale-up planner did nothing.  In every such iteration the
    classification pass is made, and the action pass is made if and only if
    the three gates hold: the reading of the clock at the first gate is at
    least [scaleDownDelay] after [lastScaleUpTime], the reading at the
    second gate is at least [scaleDownTrialInterval] after
    [lastScaleDownFailedTrial], and no schedulable pod was found marked
    unschedulable in this iteration; when a gate fails the classification
    pass is all that is made.  No other iteration makes either pass.
    Hence, while the clock does not go back, after an iteration that scaled
    up no later iteration makes the action pass as long as its reading at
    the first gate is less than [scaleDownDelay] after the time recorded
    for the scale-up. *)
Theorem scale_down_action_gated cfg :
  (forall w s snap,
     observe X w = inr snap ->
     reaches_scale_down X cfg w snap ->
     CallFindUnneededNodes ∈ issued X cfg w s /\
     (CallScaleDown ∈ issued X cfg w s <->
      scaleDownDelay X cfg <= Now X w AtGateDelay - lastScaleUpTime X s /\
      scaleDownTrialInterval X cfg
        <= Now X w AtGateTrial - lastScaleDownFailedTrial X s /\
      schedulablePodsPresent X (triage X cfg w snap) = false)) /\
  (forall w s,
     CallFindUnneededNodes ∈ issued X cfg w s ->
     exists snap, observe X w = inr snap /\ reaches_scale_down X cfg w snap) /\
  (forall w s,
     CallScaleDown ∈ issued X cfg w s <->
     CallFindUnneededNodes ∈ issued X cfg w s /\
     scaleDownDelay X cfg <= Now X w AtGateDelay - lastScaleUpTime X s /\
     scaleDownTrialInterval X cfg
       <= Now X w AtGateTrial - lastScaleDownFailedTrial X s /\
     present_in_tick X cfg w = false) /\
  (forall t0 s w mid w',
     chronological X t0 (w :: mid ++ [w']) ->
     outcome X cfg w s = Continue ScaledUp ->
     Now X w' AtGateDelay - Now X w AtScaledUp < scaleDownDelay X cfg ->
     CallScaleDown ∉ issued X cfg w' (loop X cfg s (w :: mid))).
Proof.
  split; [|split; [|split]].
  - intros w s snap Hobs Hreach.
    assert (CallFindUnneededNodes ∈ issued X cfg w s) as Hfind
      by (by apply (classification_iff cfg w s snap Hobs)).
    split; [done|].
    rewrite action_iff. unfold timers_allow, present_in_tick. rewrite Hobs. tauto.
  - intros w s Hfind.
    destruct (classification_needs_listing cfg w s Hfind) as [snap Hobs].
    exists snap. split; [done|]. by apply (classification_iff cfg w s snap Hobs).
  - intros w s. rewrite action_iff. unfold timers_allow. tauto.
  - intros t0 s w mid w' Hchrono Hup Hsoon Hdown.
    apply action_iff in Hdown as (_ & [Hdelay _] & _).
    apply chronological_head in Hchrono as (_ & t1 & Hhi & Hrest).
    apply chronological_app_l in Hrest.
    pose proof (scaled_up_sets_time cfg w s Hup) as Hset.
    change (loop X cfg s (w :: mid))
      with (loop X cfg (after_tick X cfg w s) mid) in Hdelay.
    pose proof (lastScaleUpTime_monotone cfg mid t1 (after_tick X cfg w s)) as Hmono.
    rewrite Hset in Hmono. specialize (Hmono (Hhi AtScaledUp) Hrest). lia.
Qed.

(** Claim C2.  In an iteration in which [ScaleUp] is called and returns
    [scaledUp = true], the iteration is left at once: neither the
    classification pass nor the action pass is made; and, the answer being
    a success (no error value beside it), [lastScaleUpTime] becomes the
    reading of the clock taken right then. *)
Theorem scaled_up_ends_tick cfg w s snap :
  observe X w = inr snap ->
  CallScaleUp ∈ issued X cfg w s ->
  let answer :=
    ScaleUp X w (unschedulablePodsToHelp X (triage X cfg w snap)) (nodes X snap) in
  answer.1 = true ->
  (exists why, outcome X cfg w s = Continue why) /\
  (CallFindUnneededNodes ∉ issued X cfg w s) /\
  (CallScaleDown ∉ issued X cfg w s) /\
  (answer.2 = None ->
   outcome X cfg w s = Continue ScaledUp /\
   lastScaleUpTime X (after_tick X cfg w s) = Now X w AtScaledUp).
Proof.
  intros Hobs. run_body. rewrite Hobs. simpl.
  destruct (length _ =? 0)%nat; simpl.
  { intros Hin. exfalso. revert Hin. branches; among_calls. }
  intros _.
  destruct (ScaleUp X w _ _) as [scaledUp [e|]]; simpl; intros ->; simpl.
  - split; [eauto|]. repeat split; among_calls.
  - split; [eauto|]. repeat split; among_calls.
Qed.

(** What the loop does with the answer of [ScaleDown]: an outcome other
    than success that comes without an error value is recorded ... *)
Lemma failed_trial_recorded cfg w s snap result tracking :
  observe X w = inr snap ->
  CallScaleDown ∈ issued X cfg w s ->
  attempt X cfg w snap (classify X cfg w snap s) = (result, None, tracking) ->
  result <> ScaleDownSuccess ->
  lastScaleDownFailedTrial X (after_tick X cfg w s) = Now X w AtFailedTrial.
Proof.
  intros Hobs Hin Hans Hres. revert Hin. run_body. rewrite Hobs. simpl.
  branches; try among_calls.
Qed.

(** ... and an answer that carries an error value is only logged. *)
Lemma error_value_not_recorded cfg w s snap result e tracking :
  observe X w = inr snap ->
  CallScaleDown ∈ issued X cfg w s ->
  attempt X cfg w snap (classify X cfg w snap s) = (result, Some e, tracking) ->
  lastScaleDownFailedTrial X (after_tick X cfg w s) = lastScaleDownFailedTrial X s.
Proof.
  intros Hobs Hin Hans. revert Hin. run_body. rewrite Hobs. simpl.
  branches; try among_calls.
Qed.

(** Claim C4, as the code has it.  When pods are left to help after the
    reset and the filter, the scale-up planner is called first.  The
    scale-down planner (classification, and with it the gated action pass)
    runs in an iteration exactly when scale-down is enabled and either no
    pod was left to help or the scale-up planner came back without an error
    and without having scaled up; in the latter case the iteration goes on
    from the scale-up planner to the classification pass. *)
Theorem scale_down_after_fruitless_scale_up cfg w s snap :
  observe X w = inr snap ->
  let pods := unschedulablePodsToHelp X (triage X cfg w snap) in
  (pods <> [] ->
   exists rest,
     issued X cfg w s = CallResetPodScheduledCondition :: CallScaleUp :: rest) /\
  (CallFindUnneededNodes ∈ issued X cfg w s \/ CallScaleDown ∈ issued X cfg w s ->
   scaleDownEnabled X cfg = true /\
   (pods = [] \/ ScaleUp X w pods (nodes X snap) = (false, None))) /\
  (scaleDownEnabled X cfg = true ->
   pods = [] \/ ScaleUp X w pods (nodes X snap) = (false, None) ->
   CallFindUnneededNodes ∈ issued X cfg w s) /\
  (scaleDownEnabled X cfg = true ->
   pods <> [] ->
   ScaleUp X w pods (nodes X snap) = (false, None) ->
   exists rest,
     issued X cfg w s =
     CallResetPodScheduledCondition :: CallScaleUp :: CallFindUnneededNodes :: rest).
Proof.
  intros Hobs pods. subst pods. split; [|split; [|split]].
  - run_body. rewrite Hobs. simpl.
    destruct (unschedulablePodsToHelp X (triage X cfg w snap)) as [|p ps]; [done|].
    intros _. simpl. branches; eauto.
  - intros Hin.
    assert (CallFindUnneededNodes ∈ issued X cfg w s) as Hfind.
    { destruct Hin; [done | by apply action_after_classification]. }
    by apply (classification_iff cfg w s snap Hobs).
  - intros Hon Hthrough. by apply (classification_iff cfg w s snap Hobs).
  - by apply fall_through_calls.
Qed.

(** Claim C5.  [FilterOutSchedulable] being a filter: if it runs and
    removes at least one pod from the pods left to help, the flag
    [schedulablePodsPresent] is true in that iteration and the action pass
    is not made; and the flag is true only if the filter ran and removed at
    least one pod. *)
Theorem schedulable_pods_suppress_scale_down cfg w s snap :
  filter_contract X ->
  observe X w = inr snap ->
  (filter_removes X cfg w snap ->
   schedulablePodsPresent X (triage X cfg w snap) = true /\
   (CallScaleDown ∉ issued X cfg w s)) /\
  (schedulablePodsPresent X (triage X cfg w snap) = true ->
   filter_removes X cfg w snap).
Proof.
  intros Hfilter Hobs.
  assert (schedulablePodsPresent X (triage X cfg w snap) = true <->
          filter_removes X cfg w snap) as Hflag.
  { unfold filter_removes, triage, marked_unschedulable.
    destruct (SlicePodsByPodScheduledTime X _ _) as [reset pods]. simpl.
    destruct (verifyUnschedulablePods X cfg); simpl;
      [|split; [done | intros [? _]; done]].
    rewrite negb_true_iff, Nat.eqb_neq.
    pose proof (sublist_length _ _
      (Hfilter w pods (nodes X snap) (allScheduled X snap))).
    split; [intros; split; [done|lia] | intros [_ ?]; lia]. }
  split; [|by apply Hflag].
  intros Hrem. apply Hflag in Hrem. split; [done|].
  rewrite action_iff. unfold present_in_tick. rewrite Hobs, Hrem.
  intros (_ & _ & ?). done.
Qed.

(** A failing listing leaves the iteration before anything else is done. *)
Lemma listing_fails_observe w :
  listing_fails X w -> exists why, observe X w = inl why.
Proof.
  unfold listing_fails, observe.
  destruct (nodeLister_List X w) as [ns [e|]]; simpl; [eauto|].
  destruct ns as [|n ns]; simpl; [eauto|].
  destruct (CheckGroupsAndNodes X w (n :: ns)); [eauto|].
  destruct (unschedulablePodLister_List X w) as [ps [e|]]; simpl; [eauto|].
  destruct (scheduledPodLister_List X w) as [qs [e|]]; simpl; [eauto|].
  intros [?|[?|[?|[?|?]]]]; done.
Qed.

(** Claim C6.  If listing the nodes fails, or there is no node, or the
    group check fails, or listing the unschedulable or the scheduled pods
    fails, the iteration is left there: no call is made (so the provider is
    not asked to change anything) and the variables the loop carries over
    ([lastScaleUpTime], [lastScaleDownFailedTrial], [unneededNodes],
    [podLocationHints], [usageTracker]) are as before the iteration. *)
Theorem listing_failure_aborts_tick cfg w s :
  listing_fails X w ->
  after_tick X cfg w s = s /\
  issued X cfg w s = [] /\
  (CallScaleUp ∉ issued X cfg w s) /\ (CallScaleDown ∉ issued X cfg w s).
Proof.
  intros [why Hobs]%listing_fails_observe.
  unfold after_tick, issued. rewrite (run_tick_left cfg w s why Hobs). simpl.
  repeat split; among_calls.
Qed.

(** Claim C7, as the code has it.  When the group check on the listed
    nodes fails (a node of no known group), the loop warns and leaves the
    whole iteration: no pod is listed, no planner is called, no variable of
    the loop changes.  The loop itself goes on with the next iteration. *)
Theorem failed_group_check_aborts_tick cfg w s ns e ws :
  nodeLister_List X w = (ns, None) ->
  ns <> [] ->
  CheckGroupsAndNodes X w ns = Some e ->
  outcome X cfg w s = Continue NotReady /\
  issued X cfg w s = [] /\
  after_tick X cfg w s = s /\
  loop X cfg s (w :: ws) = loop X cfg s ws.
Proof.
  intros Hlist Hne Hcheck.
  assert (observe X w = inl NotReady) as Hobs.
  { unfold observe. rewrite Hlist. destruct ns; [done|]. simpl. by rewrite Hcheck. }
  assert (after_tick X cfg w s = s) as Hsame.
  { unfold after_tick. by rewrite (run_tick_left cfg w s _ Hobs). }
  unfold outcome, issued. rewrite (run_tick_left cfg w s _ Hobs). simpl.
  repeat split; [done|].
  change (loop X cfg s (w :: ws)) with (loop X cfg (after_tick X cfg w s) ws).
  by rewrite Hsame.
Qed.

(** Claim C8.  While the clock does not go back, [lastScaleUpTime] never
    decreases: its value after [i] iterations is at most its value after
    [j] iterations whenever [i <= j]. *)
Theorem lastScaleUpTime_never_decreases cfg t0 s0 (ws : list (World X)) (i j : nat) :
  lastScaleUpTime X s0 <= t0 ->
  chronological X t0 ws ->
  (i <= j)%nat ->
  lastScaleUpTime X (loop X cfg s0 (take i ws))
    <= lastScaleUpTime X (loop X cfg s0 (take j ws)).
Proof.
  intros Hs0 Hws Hij.
  assert (take j ws = take i ws ++ drop i (take j ws)) as ->.
  { rewrite <- (take_drop i (take j ws)) at 1.
    by rewrite take_take, Nat.min_l. }
  rewrite loop_app.
  assert (chronological X t0 (take i ws ++ drop i (take j ws))) as Hprefix.
  { replace (take i ws ++ drop i (take j ws)) with (take j ws).
    - apply chronological_app_l with (drop j ws). by rewrite take_drop.
    - rewrite <- (take_drop i (take j ws)) at 1.
      by rewrite take_take, Nat.min_l. }
  destruct (timer_bounded cfg (lastScaleUpTime X)) with
    (ws := take i ws) (vs := drop i (take j ws)) (t0 := t0) (s := s0)
    as (t1 & Hle & Hrest); [|done|done|].
  { intros w s. destruct (lastScaleUpTime_step cfg w s) as [?|[_ ?]]; eauto. }
  by apply lastScaleUpTime_monotone with t1.
Qed.

(** Claim C9.  With [verifyUnschedulablePods] off, the filter is not run
    in any iteration: the pods left to help are the marked ones as they
    come, the flag [schedulablePodsPresent] is false, and the action pass
    depends on the two timers alone. *)
Theorem unverified_pods_pass_unfiltered cfg :
  verifyUnschedulablePods X cfg = false ->
  (forall w snap,
     triage X cfg w snap =
     {| podsToReset :=
          (SlicePodsByPodScheduledTime X (allUnschedulablePods X snap)
             (GetAllNodesAvailableTime X (nodes X snap))).1;
        schedulablePodsPresent := false;
        unschedulablePodsToHelp := marked_unschedulable X snap |}) /\
  (forall w, present_in_tick X cfg w = false) /\
  (forall w s,
     CallScaleDown ∈ issued X cfg w s <->
     CallFindUnneededNodes ∈ issued X cfg w s /\ timers_allow X cfg w s).
Proof.
  intros Hoff.
  assert (forall w snap, schedulablePodsPresent X (triage X cfg w snap) = false) as Hflag.
  { intros w snap. unfold triage. rewrite Hoff. by destruct (SlicePodsByPodScheduledTime X _ _). }
  assert (forall w, present_in_tick X cfg w = false) as Hnone.
  { intros w. unfold present_in_tick. destruct (observe X w); [done|apply Hflag]. }
  split; [|split; [done|]].
  - intros w snap. unfold triage, marked_unschedulable. rewrite Hoff.
    by destruct (SlicePodsByPodScheduledTime X _ _).
  - intros w s. rewrite action_iff, Hnone. tauto.
Qed.

(** Claim C10.  Before the loop both timers are set to readings of the
    clock at start-up, [t1] and then [t2].  So, while the clock does not go
    back, no iteration makes the action pass whose reading at the first
    gate is earlier than [t1 + scaleDownDelay], or whose reading at the
    second gate is earlier than [t2 + scaleDownTrialInterval], whether or
    not anything was scaled before. *)
Theorem no_scale_down_right_after_start cfg (t1 t2 : Time) :
  lastScaleUpTime X (init X t1 t2) = t1 /\
  lastScaleDownFailedTrial X (init X t1 t2) = t2 /\
  (forall pre w,
     t1 <= t2 ->
     chronological X t2 (pre ++ [w]) ->
     Now X w AtGateDelay < t1 + scaleDownDelay X cfg \/
     Now X w AtGateTrial < t2 + scaleDownTrialInterval X cfg ->
     CallScaleDown ∉ issued X cfg w (loop X cfg (init X t1 t2) pre)).
Proof.
  split; [done|split; [done|]].
  intros pre w H12 Hchrono Hearly Hdown.
  apply action_iff in Hdown as (_ & [Hdelay Htrial] & _).
  apply chronological_app_l in Hchrono.
  pose proof (lastScaleUpTime_monotone cfg pre t2 (init X t1 t2)) as Hup.
  pose proof (lastScaleDownFailedTrial_monotone cfg pre t2 (init X t1 t2)) as Hfail.
  simpl in Hup, Hfail.
  specialize (Hup H12 Hchrono). specialize (Hfail ltac:(lia) Hchrono). lia.
Qed.

(** ** More about one iteration *)

(** X1.  The calls of an iteration come in one order: nothing at all when the
    listing fails, and otherwise the reset of the pod conditions first,
    then at most one call of the scale-up planner, then at most one
    classification pass, then at most one action pass, which is never made
    without the classification pass before it. *)
Theorem calls_in_order cfg w s :
  match observe X w with
  | inl _ => issued X cfg w s = []
  | inr _ =>
    exists rest,
      issued X cfg w s = CallResetPodScheduledCondition :: rest /\
      rest ∈ [ [];
               [CallScaleUp];
               [CallFindUnneededNodes];
               [CallFindUnneededNodes; CallScaleDown];
               [CallScaleUp; CallFindUnneededNodes];
               [CallScaleUp; CallFindUnneededNodes; CallScaleDown] ]
  end.
Proof.
  run_body. destruct (observe X w) as [why|snap]; simpl; [done|].
  branches; eexists; (split; [reflexivity|]); repeat constructor.
Qed.

(** X2.  The scale-up planner is called exactly when pods are left to help
    after the reset and the filter, so never for an empty list. *)
Theorem ScaleUp_iff_pods_left cfg w s snap :
  observe X w = inr snap ->
  CallScaleUp ∈ issued X cfg w s <->
  unschedulablePodsToHelp X (triage X cfg w snap) <> [].
Proof.
  intros Hobs. run_body. rewrite Hobs. simpl.
  destruct (unschedulablePodsToHelp X (triage X cfg w snap)) as [|p ps]; simpl.
  - branches; among_calls.
  - branches; among_calls.
Qed.

(** X3.  An error from the scale-up planner ends the iteration with every
    variable of the loop as it was and without any scale-down pass. *)
Theorem ScaleUp_error_changes_nothing cfg w s snap e :
  observe X w = inr snap ->
  CallScaleUp ∈ issued X cfg w s ->
  (ScaleUp X w (unschedulablePodsToHelp X (triage X cfg w snap)) (nodes X snap)).2
    = Some e ->
  outcome X cfg w s = Continue ScaleUpFailed /\
  after_tick X cfg w s = s /\
  issued X cfg w s = [CallResetPodScheduledCondition; CallScaleUp].
Proof.
  intros Hobs. run_body. rewrite Hobs. simpl.
  destruct (length _ =? 0)%nat; simpl.
  { intros Hin. exfalso. revert Hin. branches; among_calls. }
  intros _. destruct (ScaleUp X w _ _) as [scaledUp err]. simpl. intros ->. done.
Qed.

(** What an iteration leaves alone, by the calls it does not make. *)
Lemma tick_frame cfg w s :
  (CallScaleUp ∉ issued X cfg w s ->
   lastScaleUpTime X (after_tick X cfg w s) = lastScaleUpTime X s) /\
  (CallScaleDown ∉ issued X cfg w s ->
   lastScaleDownFailedTrial X (after_tick X cfg w s)
   = lastScaleDownFailedTrial X s) /\
  (CallFindUnneededNodes ∉ issued X cfg w s ->
   unneededNodes X (after_tick X cfg w s) = unneededNodes X s /\
   podLocationHints X (after_tick X cfg w s) = podLocationHints X s /\
   usageTracker X (after_tick X cfg w s) = usageTracker X s).
Proof.
  run_body. destruct (observe X w) as [why|snap]; simpl; [done|].
  split; [|split]; intros Hnot; revert Hnot; branches; intros Hnot;
    try done; exfalso; apply Hnot; among_calls.
Qed.

(** X4.  Each variable of the loop has one place that writes it: the timer of
    the last scale-up is as before unless the scale-up planner was called,
    the timer of the last failed trial is as before unless the action pass
    was made, and the unneeded nodes, the location hints and the usage
    tracker are as before unless the classification pass was made. *)
Theorem variables_change_only_in_their_pass cfg w s :
  (CallScaleUp ∉ issued X cfg w s ->
   lastScaleUpTime X (after_tick X cfg w s) = lastScaleUpTime X s) /\
  (CallScaleDown ∉ issued X cfg w s ->
   lastScaleDownFailedTrial X (after_tick X cfg w s)
   = lastScaleDownFailedTrial X s) /\
  (CallFindUnneededNodes ∉ issued X cfg w s ->
   unneededNodes X (after_tick X cfg w s) = unneededNodes X s /\
   podLocationHints X (after_tick X cfg w s) = podLocationHints X s /\
   usageTracker X (after_tick X cfg w s) = usageTracker X s).
Proof.
  run_body. destruct (observe X w) as [why|snap]; simpl; [done|].
  split; [|split]; intros Hnot; revert Hnot; branches; intros Hnot;
    try done; exfalso; apply Hnot; among_calls.
Qed.

(** X5.  With scale-down switched off no iteration makes a scale-down pass, and
    through any number of iterations the unneeded nodes, the location
    hints, the usage tracker and the timer of the last failed trial stay
    what they were. *)
Theorem scale_down_disabled_is_inert cfg :
  scaleDownEnabled X cfg = false ->
  (forall w s,
     (CallFindUnneededNodes ∉ issued X cfg w s) /\
     (CallScaleDown ∉ issued X cfg w s)) /\
  (forall ws s,
     unneededNodes X (loop X cfg s ws) = unneededNodes X s /\
     podLocationHints X (loop X cfg s ws) = podLocationHints X s /\
     usageTracker X (loop X cfg s ws) = usageTracker X s /\
     lastScaleDownFailedTrial X (loop X cfg s ws) = lastScaleDownFailedTrial X s).
Proof.
  intros Hoff.
  assert (forall w s,
    (CallFindUnneededNodes ∉ issued X cfg w s) /\
    (CallScaleDown ∉ issued X cfg w s)) as Hnone.
  { intros w s. run_body. rewrite Hoff.
    destruct (observe X w) as [why|snap]; simpl; [among_calls|].
    branches; among_calls. }
  split; [done|].
  intros ws. induction ws as [|w ws IH]; intros s; [done|].
  change (loop X cfg s (w :: ws)) with (loop X cfg (after_tick X cfg w s) ws).
  destruct (Hnone w s) as [Hfind Hdown].
  destruct (tick_frame cfg w s) as (_ & Htrial & Htrack).
  destruct (Htrack Hfind) as (Hu & Hh & Ht).
  destruct (IH (after_tick X cfg w s)) as (-> & -> & -> & ->).
  by rewrite Hu, Hh, Ht, (Htrial Hdown).
Qed.

(** X6.  While the clock does not go back, the timer of the last failed trial
    never decreases. *)
Theorem lastScaleDownFailedTrial_never_decreases
    cfg t0 s0 (ws : list (World X)) (i j : nat) :
  lastScaleDownFailedTrial X s0 <= t0 ->
  chronological X t0 ws ->
  (i <= j)%nat ->
  lastScaleDownFailedTrial X (loop X cfg s0 (take i ws))
    <= lastScaleDownFailedTrial X (loop X cfg s0 (take j ws)).
Proof.
  intros Hs0 Hws Hij.
  assert (take j ws = take i ws ++ drop i (take j ws)) as Hsplit.
  { rewrite <- (take_drop i (take j ws)) at 1.
    by rewrite take_take, Nat.min_l. }
  assert (chronological X t0 (take i ws ++ drop i (take j ws))) as Hprefix.
  { rewrite <- Hsplit. apply chronological_app_l with (drop j ws).
    by rewrite take_drop. }
  rewrite Hsplit, loop_app.
  destruct (timer_bounded cfg (lastScaleDownFailedTrial X)) with
    (ws := take i ws) (vs := drop i (take j ws)) (t0 := t0) (s := s0)
    as (t1 & Hle & Hrest); [|done|done|].
  { intros w s. destruct (lastScaleDownFailedTrial_step cfg w s) as [?|[_ ?]]; eauto. }
  by apply lastScaleDownFailedTrial_monotone with t1.
Qed.

(** X7.  After an action pass whose outcome, returned without an error value,
    is not a success, no later iteration makes the action pass as long as
    its reading of the clock at the second gate is less than
    [scaleDownTrialInterval] after the time recorded for the failure
    (the clock not going back). *)
Theorem failed_trial_backs_off cfg t0 s w mid w' snap result tracking :
  chronological X t0 (w :: mid ++ [w']) ->
  observe X w = inr snap ->
  CallScaleDown ∈ issued X cfg w s ->
  attempt X cfg w snap (classify X cfg w snap s) = (result, None, tracking) ->
  result <> ScaleDownSuccess ->
  Now X w' AtGateTrial - Now X w AtFailedTrial < scaleDownTrialInterval X cfg ->
  CallScaleDown ∉ issued X cfg w' (loop X cfg s (w :: mid)).
Proof.
  intros Hchrono Hobs Hin Hans Hres Hsoon Hdown.
  apply action_iff in Hdown as (_ & [_ Htrial] & _).
  apply chronological_head in Hchrono as (_ & t1 & Hhi & Hrest).
  apply chronological_app_l in Hrest.
  pose proof (failed_trial_recorded cfg w s snap result tracking Hobs Hin Hans Hres)
    as Hset.
  change (loop X cfg s (w :: mid))
    with (loop X cfg (after_tick X cfg w s) mid) in Htrial.
  pose proof (lastScaleDownFailedTrial_monotone cfg mid t1 (after_tick X cfg w s))
    as Hmono.
  rewrite Hset in Hmono. specialize (Hmono (Hhi AtFailedTrial) Hrest). lia.
Qed.

End Properties.

(** * The loop on the scripted cluster *)

Section Scripted.
Import Demo.

Lemma cluster_filter_contract : filter_contract cluster.
Proof.
  intros w pods ns scheduled. simpl. unfold filter_out_schedulable.
  induction pods as [|p pods IH]; simpl; [constructor|].
  destruct (negb (sc_fits w p)); by constructor.
Qed.

(** A quiet iteration long after start-up makes both passes ... *)
Example quiet_tick_scales_down :
  issued cluster (flags true) (quiet 1000) start
  = [CallResetPodScheduledCondition; CallFindUnneededNodes; CallScaleDown].
Proof. reflexivity. Qed.

(** ... and soon after start-up only the classification pass. *)
Example early_tick_classifies_only :
  issued cluster (flags true) (quiet 100) start
  = [CallResetPodScheduledCondition; CallFindUnneededNodes].
Proof. reflexivity. Qed.

(** An outcome [ScaleDownError] without an error value is recorded. *)
Example error_outcome_recorded :
  lastScaleDownFailedTrial cluster
    (after_tick cluster (flags true) (shrinking 1000 (ScaleDownError, None)) start)
  = 1005.
Proof. reflexivity. Qed.

Lemma scale_down_action_gated_witness :
  (* long after start-up both passes are made *)
  observe cluster (quiet 1000) = inr (seen []) /\
  reaches_scale_down cluster (flags true) (quiet 1000) (seen []) /\
  CallFindUnneededNodes ∈ issued cluster (flags true) (quiet 1000) start /\
  CallScaleDown ∈ issued cluster (flags true) (quiet 1000) start /\
  (* soon after start-up the first gate is closed: classification only *)
  observe cluster (quiet 100) = inr (seen []) /\
  reaches_scale_down cluster (flags true) (quiet 100) (seen []) /\
  CallFindUnneededNodes ∈ issued cluster (flags true) (quiet 100) start /\
  (CallScaleDown ∉ issued cluster (flags true) (quiet 100) start) /\
  (* after a scale-up *)
  chronological cluster 0
    (pending 1000 ["batch"] nothing_fits (true, None) :: [quiet 1100] ++ [quiet 1500]) /\
  outcome cluster (flags true) (pending 1000 ["batch"] nothing_fits (true, None)) start
    = Continue ScaledUp /\
  Now cluster (quiet 1500) AtGateDelay
    - Now cluster (pending 1000 ["batch"] nothing_fits (true, None)) AtScaledUp
    < scaleDownDelay cluster (flags true) /\
  (CallScaleDown ∉
     issued cluster (flags true) (quiet 1500)
       (loop cluster (flags true) start
          [pending 1000 ["batch"] nothing_fits (true, None); quiet 1100])).
Proof.
  assert (observe cluster (quiet 1000) = inr (seen [])) as Hobs by reflexivity.
  assert (reaches_scale_down cluster (flags true) (quiet 1000) (seen [])) as Hreach
    by (split; [reflexivity | left; reflexivity]).
  assert (observe cluster (quiet 100) = inr (seen [])) as Hobs' by reflexivity.
  assert (reaches_scale_down cluster (flags true) (quiet 100) (seen [])) as Hreach'
    by (split; [reflexivity | left; reflexivity]).
  assert (chronological cluster 0
    (pending 1000 ["batch"] nothing_fits (true, None) :: [quiet 1100] ++ [quiet 1500]))
    as Hchrono by (unfold chronological; simpl; lia).
  assert (outcome cluster (flags true)
            (pending 1000 ["batch"] nothing_fits (true, None)) start
          = Continue ScaledUp) as Hup by reflexivity.
  assert (Now cluster (quiet 1500) AtGateDelay
    - Now cluster (pending 1000 ["batch"] nothing_fits (true, None)) AtScaledUp
    < scaleDownDelay cluster (flags true)) as Hsoon by (simpl; lia).
  destruct (proj1 (scale_down_action_gated cluster (flags true))
              (quiet 1000) start (seen []) Hobs Hreach) as [Hfind Hgates].
  destruct (proj1 (scale_down_action_gated cluster (flags true))
              (quiet 100) start (seen []) Hobs' Hreach') as [Hfind' Hgates'].
  split; [exact Hobs|]. split; [exact Hreach|]. split; [exact Hfind|].
  split; [apply Hgates; simpl; split; [lia | split; [lia | reflexivity]]|].
  split; [exact Hobs'|]. split; [exact Hreach'|]. split; [exact Hfind'|].
  split; [intros Hdown; apply Hgates' in Hdown as [Hdelay _]; simpl in Hdelay; lia|].
  split; [exact Hchrono|]. split; [exact Hup|]. split; [exact Hsoon|].
  exact (proj2 (proj2 (proj2 (scale_down_action_gated cluster (flags true))))
           0 start _ [quiet 1100] (quiet 1500) Hchrono Hup Hsoon).
Defined.

Lemma scaled_up_ends_tick_witness :
  observe cluster (pending 1000 ["batch"] nothing_fits (true, None))
    = inr (seen ["batch"]) /\
  CallScaleUp ∈ issued cluster (flags true)
    (pending 1000 ["batch"] nothing_fits (true, None)) start /\
  (CallFindUnneededNodes ∉ issued cluster (flags true)
    (pending 1000 ["batch"] nothing_fits (true, None)) start) /\
  (CallScaleDown ∉ issued cluster (flags true)
    (pending 1000 ["batch"] nothing_fits (true, None)) start) /\
  outcome cluster (flags true)
    (pending 1000 ["batch"] nothing_fits (true, None)) start = Continue ScaledUp /\
  lastScaleUpTime cluster
    (after_tick cluster (flags true)
       (pending 1000 ["batch"] nothing_fits (true, None)) start) = 1000.
Proof.
  assert (observe cluster (pending 1000 ["batch"] nothing_fits (true, None))
          = inr (seen ["batch"])) as Hobs by reflexivity.
  assert (CallScaleUp ∈ issued cluster (flags true)
            (pending 1000 ["batch"] nothing_fits (true, None)) start) as Hin
    by (vm_compute; repeat constructor).
  split; [exact Hobs|]. split; [exact Hin|].
  destruct (scaled_up_ends_tick cluster (flags true) _ start _ Hobs Hin eq_refl)
    as (_ & Hfind & Hdown & Hset).
  split; [exact Hfind|]. split; [exact Hdown|]. exact (Hset eq_refl).
Defined.

(** Claim C3, on the scripted cluster: long after start-up the action pass
    is made, [ScaleDown] answers [ScaleDownError] together with an error
    value, and [lastScaleDownFailedTrial] keeps its old value [0] although
    the clock reads [1005] where the timer would be set. *)
Theorem scale_down_error_not_recorded :
  let w := shrinking 1000 (ScaleDownError, Some "delete failed") in
  issued cluster (flags true) w start
    = [CallResetPodScheduledCondition; CallFindUnneededNodes; CallScaleDown] /\
  (attempt cluster (flags true) w (seen [])
     (classify cluster (flags true) w (seen []) start)).1
    = (ScaleDownError, Some "delete failed") /\
  lastScaleDownFailedTrial cluster (after_tick cluster (flags true) w start) = 0 /\
  Now cluster w AtFailedTrial = 1005.
Proof. repeat split. Qed.

Lemma scale_down_only_when_satisfied_fails :
  ~ scale_down_only_when_satisfied cluster (flags true)
      (pending 1000 ["batch"] nothing_fits (false, None)) start.
Proof.
  intros Hclaim.
  destruct (Hclaim (seen ["batch"]) eq_refl) as [Honly _].
  assert ((["batch"] : list string) = []) as Habsurd; [|discriminate Habsurd].
  apply Honly. left. vm_compute. repeat constructor.
Qed.

Lemma scale_down_after_fruitless_scale_up_witness :
  observe cluster (pending 1000 ["batch"] nothing_fits (false, None))
    = inr (seen ["batch"]) /\
  scaleDownEnabled cluster (flags true) = true /\
  ScaleUp cluster (pending 1000 ["batch"] nothing_fits (false, None))
    ["batch"] ["n1"; "n2"] = (false, None) /\
  CallFindUnneededNodes ∈ issued cluster (flags true)
    (pending 1000 ["batch"] nothing_fits (false, None)) start /\
  (exists rest,
     issued cluster (flags true)
       (pending 1000 ["batch"] nothing_fits (false, None)) start
     = CallResetPodScheduledCondition :: CallScaleUp :: CallFindUnneededNodes :: rest).
Proof.
  assert (observe cluster (pending 1000 ["batch"] nothing_fits (false, None))
          = inr (seen ["batch"])) as Hobs by reflexivity.
  destruct (scale_down_after_fruitless_scale_up cluster (flags true)
              (pending 1000 ["batch"] nothing_fits (false, None)) start
              (seen ["batch"]) Hobs) as (_ & _ & Hthrough & Horder).
  split; [exact Hobs|]. split; [reflexivity|]. split; [reflexivity|].
  split.
  - apply Hthrough; [reflexivity | right; reflexivity].
  - apply Horder; [reflexivity | simpl; discriminate | reflexivity].
Defined.

Lemma schedulable_pods_suppress_scale_down_witness :
  filter_contract cluster /\
  observe cluster
    (pending 1000 ["a"; "b"] (fun p => bool_decide (p = "a")) (false, None))
    = inr (seen ["a"; "b"]) /\
  filter_removes cluster (flags true)
    (pending 1000 ["a"; "b"] (fun p => bool_decide (p = "a")) (false, None))
    (seen ["a"; "b"]) /\
  schedulablePodsPresent cluster
    (triage cluster (flags true)
       (pending 1000 ["a"; "b"] (fun p => bool_decide (p = "a")) (false, None))
       (seen ["a"; "b"])) = true /\
  (CallScaleDown ∉ issued cluster (flags true)
     (pending 1000 ["a"; "b"] (fun p => bool_decide (p = "a")) (false, None)) start).
Proof.
  assert (observe cluster
    (pending 1000 ["a"; "b"] (fun p => bool_decide (p = "a")) (false, None))
    = inr (seen ["a"; "b"])) as Hobs by reflexivity.
  assert (filter_removes cluster (flags true)
    (pending 1000 ["a"; "b"] (fun p => bool_decide (p = "a")) (false, None))
    (seen ["a"; "b"])) as Hrem by (split; [reflexivity | vm_compute; lia]).
  split; [exact cluster_filter_contract|]. split; [exact Hobs|].
  split; [exact Hrem|].
  exact (proj1 (schedulable_pods_suppress_scale_down cluster (flags true)
                  _ start _ cluster_filter_contract Hobs) Hrem).
Defined.

Lemma listing_failure_aborts_tick_witness :
  listing_fails cluster (unreachable 1000) /\
  after_tick cluster (flags true) (unreachable 1000) start = start /\
  issued cluster (flags true) (unreachable 1000) start = [] /\
  (CallScaleUp ∉ issued cluster (flags true) (unreachable 1000) start) /\
  (CallScaleDown ∉ issued cluster (flags true) (unreachable 1000) start).
Proof.
  assert (listing_fails cluster (unreachable 1000)) as Hfail
    by (left; simpl; discriminate).
  split; [exact Hfail|].
  exact (listing_failure_aborts_tick cluster (flags true) _ start Hfail).
Defined.

Lemma failed_check_keeps_tick_fails :
  ~ failed_check_keeps_tick cluster (flags true) (stray_node 1000) start.
Proof.
  intros Hclaim.
  apply (Hclaim ["n1"; "n2"] "no node group for n2"); [reflexivity|discriminate| |];
    reflexivity.
Qed.

Lemma failed_group_check_aborts_tick_witness :
  nodeLister_List cluster (stray_node 1000) = (["n1"; "n2"], None) /\
  CheckGroupsAndNodes cluster (stray_node 1000) ["n1"; "n2"]
    = Some "no node group for n2" /\
  outcome cluster (flags true) (stray_node 1000) start = Continue NotReady /\
  issued cluster (flags true) (stray_node 1000) start = [] /\
  after_tick cluster (flags true) (stray_node 1000) start = start /\
  loop cluster (flags true) start [stray_node 1000; quiet 2000]
    = loop cluster (flags true) start [quiet 2000].
Proof.
  split; [reflexivity|]. split; [reflexivity|].
  apply (failed_group_check_aborts_tick cluster (flags true) (stray_node 1000)
           start ["n1"; "n2"] "no node group for n2" [quiet 2000]);
    [reflexivity | discriminate | reflexivity].
Defined.

Lemma lastScaleUpTime_never_decreases_witness :
  lastScaleUpTime cluster start <= 0 /\
  chronological cluster 0
    [pending 1000 ["batch"] nothing_fits (true, None); quiet 1100;
     pending 1200 ["batch"] nothing_fits (true, None)] /\
  lastScaleUpTime cluster
    (loop cluster (flags true) start
       (take 1 [pending 1000 ["batch"] nothing_fits (true, None); quiet 1100;
                pending 1200 ["batch"] nothing_fits (true, None)]))
  <= lastScaleUpTime cluster
    (loop cluster (flags true) start
       (take 3 [pending 1000 ["batch"] nothing_fits (true, None); quiet 1100;
                pending 1200 ["batch"] nothing_fits (true, None)])).
Proof.
  assert (lastScaleUpTime cluster start <= 0) as Hstart by (simpl; lia).
  assert (chronological cluster 0
    [pending 1000 ["batch"] nothing_fits (true, None); quiet 1100;
     pending 1200 ["batch"] nothing_fits (true, None)]) as Hchrono
    by (unfold chronological; simpl; lia).
  split; [exact Hstart|]. split; [exact Hchrono|].
  apply (lastScaleUpTime_never_decreases cluster (flags true) 0 start _ 1 3
           Hstart Hchrono).
  lia.
Defined.

Lemma unverified_pods_pass_unfiltered_witness :
  verifyUnschedulablePods cluster (flags false) = false /\
  present_in_tick cluster (flags false)
    (pending 1000 ["a"; "b"] (fun p => bool_decide (p = "a")) (false, None)) = false /\
  unschedulablePodsToHelp cluster
    (triage cluster (flags false)
       (pending 1000 ["a"; "b"] (fun p => bool_decide (p = "a")) (false, None))
       (seen ["a"; "b"])) = ["a"; "b"].
Proof.
  split; [reflexivity|]. split.
  - apply (proj1 (proj2 (unverified_pods_pass_unfiltered cluster (flags false) eq_refl))).
  - rewrite (proj1 (unverified_pods_pass_unfiltered cluster (flags false) eq_refl)).
    reflexivity.
Defined.

Lemma no_scale_down_right_after_start_witness :
  (0 <= 1) /\
  chronological cluster 1 ([quiet 100] ++ [quiet 300]) /\
  Now cluster (quiet 300) AtGateDelay < 0 + scaleDownDelay cluster (flags true) /\
  (CallScaleDown ∉
     issued cluster (flags true) (quiet 300)
       (loop cluster (flags true) (init cluster 0 1) [quiet 100])).
Proof.
  assert (0 <= 1) as H01 by lia.
  assert (chronological cluster 1 ([quiet 100] ++ [quiet 300])) as Hchrono
    by (unfold chronological; simpl; lia).
  assert (Now cluster (quiet 300) AtGateDelay
          < 0 + scaleDownDelay cluster (flags true)) as Hearly by (simpl; lia).
  split; [exact H01|]. split; [exact Hchrono|]. split; [exact Hearly|].
  exact (proj2 (proj2 (no_scale_down_right_after_start cluster (flags true) 0 1))
           [quiet 100] (quiet 300) H01 Hchrono (or_introl Hearly)).
Defined.

End Scripted.

(** ** Strings *)

Lemma append_nil (t : string) : "" +:+ t = t.
Proof. reflexivity. Qed.

Lemma append_cons (a : Ascii.ascii) (s t : string) :
  String.String a s +:+ t = String.String a (s +:+ t).
Proof. reflexivity. Qed.

Ltac step_append := rewrite ?append_nil, ?append_cons in *.

Lemma string_length_append (a b : string) :
  String.length (a +:+ b) = (String.length a + String.length b)%nat.
Proof. induction a as [|c a IH]; step_append; simpl; [done|]. by rewrite IH. Qed.

Lemma string_append_assoc (a b c : string) : (a +:+ b) +:+ c = a +:+ (b +:+ c).
Proof. induction a as [|x a IH]; step_append; [done|]. by rewrite IH. Qed.

Lemma string_append_inj_l (a b c : string) : a +:+ c = b +:+ c -> a = b.
Proof.
  revert b. induction a as [|x a IH]; intros [|y b] H; step_append.
  - done.
  - apply (f_equal String.length) in H. simpl in H.
    rewrite string_length_append in H. lia.
  - apply (f_equal String.length) in H. simpl in H.
    rewrite string_length_append in H. lia.
  - injection H as -> H. f_equal. by apply IH.
Qed.

Lemma concat_snoc (sep : string) (l : list string) (v : string) :
  l <> [] -> String.concat sep (l ++ [v]) = String.concat sep l +:+ sep +:+ v.
Proof.
  induction l as [|x l IH]; [done|]. intros _.
  destruct l as [|y l]; [done|].
  change (String.concat sep ((x :: y :: l) ++ [v]))
    with (x +:+ sep +:+ String.concat sep ((y :: l) ++ [v])).
  rewrite IH by done.
  change (String.concat sep (x :: y :: l))
    with (x +:+ sep +:+ String.concat sep (y :: l)).
  by rewrite !string_append_assoc.
Qed.

Lemma occurs_append (c : Ascii.ascii) (a b : string) :
  occurs c (a +:+ b) = occurs c a || occurs c b.
Proof.
  induction a as [|x a IH]; step_append; simpl; [done|].
  rewrite IH. by rewrite orb_assoc.
Qed.

(** Two texts that agree and whose first words have no space in them have
    the same first word and the same rest. *)
Lemma split_at_first_space (x y r r' : string) :
  occurs space x = false -> occurs space y = false ->
  x +:+ " " +:+ r = y +:+ " " +:+ r' -> x = y /\ r = r'.
Proof.
  revert y. induction x as [|a x IH]; intros [|b y] Hx Hy H; step_append.
  - by injection H.
  - injection H as <- _. simpl in Hy. done.
  - injection H as -> _. simpl in Hx. done.
  - injection H as -> H. simpl in Hx, Hy.
    apply orb_false_iff in Hx as [_ Hx]. apply orb_false_iff in Hy as [_ Hy].
    destruct (IH y Hx Hy H) as [-> ->]. done.
Qed.

Lemma concat_plain_inj (l1 l2 : list string) :
  Forall plain l1 -> Forall plain l2 ->
  String.concat " " l1 = String.concat " " l2 -> l1 = l2.
Proof.
  revert l2. induction l1 as [|x l1 IH]; intros l2 H1 H2 H.
  - destruct l2 as [|y l2]; [done|]. exfalso.
    apply Forall_cons in H2 as [[Hy _] _].
    destruct l2; simpl in H; [by subst|].
    destruct y; [done|]. step_append. discriminate.
  - apply Forall_cons in H1 as [[Hx Hxs] H1].
    destruct l2 as [|y l2].
    { exfalso. destruct l1; simpl in H; [by subst|].
      destruct x; [done|]. step_append. discriminate. }
    apply Forall_cons in H2 as [[Hy Hys] H2].
    destruct l1 as [|x2 l1], l2 as [|y2 l2].
    + simpl in H. by subst.
    + exfalso. simpl in H. subst x. rewrite occurs_append in Hxs.
      step_append. simpl in Hxs. by rewrite orb_true_r in Hxs.
    + exfalso. simpl in H. subst y. rewrite occurs_append in Hys.
      step_append. simpl in Hys. by rewrite orb_true_r in Hys.
    + change (x +:+ " " +:+ String.concat " " (x2 :: l1)
              = y +:+ " " +:+ String.concat " " (y2 :: l2)) in H.
      apply split_at_first_space in H as [-> H]; [|done..].
      f_equal. by apply IH.
Qed.

(** ** The flag *)

(** X15.  One [Set] per value adds the values at the end, in the order given,
    keeps what the flag held, and never fails. *)
Theorem Set_each_appends (values0 values : list string) :
  set_each values0 values = Some (values0 ++ values).
Proof.
  revert values0. induction values as [|v vs IH]; intros values0; simpl.
  - by rewrite app_nil_r.
  - rewrite IH. by rewrite <- app_assoc.
Qed.

(** X16.  Printing after a [Set]: the new value comes last, after a space when
    the flag held something, and alone between the brackets otherwise. *)
Theorem String_after_Set (values : list string) (v : string) :
  exists values', 
    MultiStringFlag_Set (Some values) v = Returned (values', None) /\
    MultiStringFlag_String (Some values') =
      Returned
        (match values with
         | [] => "[" +:+ v +:+ "]"
         | _ => "[" +:+ String.concat " " values +:+ " " +:+ v +:+ "]"
         end).
Proof.
  exists (values ++ [v]). split; [done|]. simpl.
  destruct values as [|x l]; [done|].
  rewrite concat_snoc by done. by rewrite !string_append_assoc.
Qed.

(** X17.  Flags whose values are not empty and have no space in them print the
    same only if they hold the same values. *)
Theorem String_injective_on_plain (f g : list string) :
  Forall plain f -> Forall plain g ->
  MultiStringFlag_String (Some f) = MultiStringFlag_String (Some g) ->
  f = g.
Proof.
  intros Hf Hg [= H]. step_append. try injection H as H.
  apply string_append_inj_l in H. by apply concat_plain_inj.
Qed.

(** ** Paging through networks *)

(** The calls a complete pass makes from index [i] over [n] items. *)
Definition all_accepted (i n : nat) : list (Invocation * bool) :=
  map (fun j => (ItemAt j, true)) (seq i n).

Lemma iterate_recording {St} (callback : IterateItemFunc St) (n : nat) :
  forall i s log,
    exists calls,
      iterate (recording callback) i n (s, log)
        = (iterate callback i n s, log ++ calls) /\
      (calls = all_accepted i n \/
       exists k, (k < n)%nat /\ calls = all_accepted i k ++ [(ItemAt (i + k), false)]).
Proof.
  induction n as [|n IH]; intros i s log; simpl.
  { exists []. split; [by rewrite app_nil_r | by left]. }
  destruct (callback (ItemAt i) s) as [more s'] eqn:Hcall.
  destruct more.
  - destruct (IH (S i) s' (log ++ [(ItemAt i, true)])) as (calls & Hrun & Hshape).
    exists ((ItemAt i, true) :: calls). split.
    { rewrite Hrun. by rewrite <- app_assoc. }
    destruct Hshape as [->|(k & Hk & ->)]; [by left|].
    right. exists (S k). split; [lia|].
    unfold all_accepted. simpl. by rewrite Nat.add_succ_r.
  - exists [(ItemAt i, false)]. split; [done|].
    right. exists 0%nat. split; [lia|]. by rewrite Nat.add_0_r.
Qed.

(** The record a callback keeps does not change what it does. *)
Lemma Each_recording {N St} (resp : Interface N) (callback : IterateItemFunc St) s :
  ListNetworks_Each resp callback s
  = match ListNetworks_Each resp (recording callback) (s, []) with
    | Returned (s', _) => Returned s'
    | Panicked => Panicked
    end.
Proof.
  destruct resp as [|[items|]|name]; simpl; try done.
  - by destruct (callback _ s).
  - destruct (iterate_recording callback (length (Network items)) 0 s [])
      as (calls & -> & _). done.
  - by destruct (callback _ s).
Qed.

Lemma invocations_shape {N St}
    (items : ListNetworksResponse N) (callback : IterateItemFunc St) (s : St) :
  let n := length (Network items) in
  let calls := invocations (ResponsePtr (Some items)) callback s in
  calls = all_accepted 0 n \/
  exists k, (k < n)%nat /\ calls = all_accepted 0 k ++ [(ItemAt k, false)].
Proof.
  unfold invocations. simpl.
  destruct (iterate_recording callback (length (Network items)) 0 s [])
    as (calls & -> & Hshape). simpl. done.
Qed.

(** X18.  [Each] hands the items to the callback by increasing index, from the
    first one, and goes on as long as the callback answers [true]: either
    all items are handed over and accepted but maybe the last answer, or
    the pass ends with the first item the callback answers [false] to. *)
Theorem Each_stops_at_first_false {N St}
    (items : ListNetworksResponse N) (callback : IterateItemFunc St) (s : St) :
  let n := length (Network items) in
  let calls := invocations (ResponsePtr (Some items)) callback s in
  calls = all_accepted 0 n \/
  exists k, (k < n)%nat /\ calls = all_accepted 0 k ++ [(ItemAt k, false)].
Proof.
  unfold invocations. simpl.
  destruct (iterate_recording callback (length (Network items)) 0 s [])
    as (calls & -> & Hshape). simpl. done.
Qed.

(** X19.  A callback that always answers [true] is handed every item, once each
    and in order. *)
Theorem Each_visits_all {N St}
    (items : ListNetworksResponse N) (callback : IterateItemFunc St) (s : St) :
  (forall inv s', (callback inv s').1 = true) ->
  map fst (invocations (ResponsePtr (Some items)) callback s)
  = map ItemAt (seq 0 (length (Network items))).
Proof.
  intros Htrue.
  assert (forall n i s' log,
    iterate (recording callback) i n (s', log)
    = (iterate callback i n s', log ++ all_accepted i n)) as Hall.
  { induction n as [|n IH]; intros i s' log; simpl; [by rewrite app_nil_r|].
    specialize (Htrue (ItemAt i) s').
    destruct (callback (ItemAt i) s') as [more s'']. simpl in Htrue. subst more.
    rewrite IH. by rewrite <- app_assoc. }
  unfold invocations. simpl. rewrite Hall. simpl.
  unfold all_accepted. rewrite map_map. done.
Qed.

(** X20.  The callback gets an error exactly when the response is not a
    [*ListNetworksResponse]; it is then called once, with no item, and its
    answer is not looked at. *)
Theorem Each_failure_iff_wrong_type {N St}
    (resp : Interface N) (callback : IterateItemFunc St) (s : St) :
  let calls := invocations resp callback s in
  match resp with
  | ResponsePtr _ => forall err more, (Failure err, more) ∉ calls
  | _ =>
    exists more,
      calls =
      [(Failure ("wrong type, ListNetworksResponse was expected, got "
                 +:+ type_name_of resp), more)] /\
      ListNetworks_Each resp callback s
      = Returned (callback (Failure ("wrong type, ListNetworksResponse was expected, got "
                 +:+ type_name_of resp)) s).2
  end.
Proof.
  destruct resp as [|[items|]|name]; simpl.
  - unfold invocations. simpl. destruct (callback _ s) as [more s']. eauto.
  - intros err more Hin.
    pose proof (invocations_shape items callback s) as Hshape.
    simpl in Hshape. unfold all_accepted in Hshape.
    destruct Hshape as [Hshape|(k & _ & Hshape)]; rewrite Hshape in Hin.
    + apply list_elem_of_fmap in Hin as (j & [=] & _).
    + apply elem_of_app in Hin as [Hin|Hin].
      * apply list_elem_of_fmap in Hin as (j & [=] & _).
      * apply list_elem_of_singleton in Hin. discriminate.
  - intros err more. unfold invocations. simpl. apply not_elem_of_nil.
  - unfold invocations. simpl. destruct (callback _ s) as [more s']. eauto.
Qed.

(** Setting the page and the page size, in either order, gives the same
    request: the two fields as set and the rest as it was. *)
Lemma SetPage_SetPageSize_commute {F} (r : ListNetworks F) (page size : Z) :
  exists r1 r2 r',
    ListNetworks_SetPage (Some r) page = Returned r1 /\
    ListNetworks_SetPageSize (Some r1) size = Returned r' /\
    ListNetworks_SetPageSize (Some r) size = Returned r2 /\
    ListNetworks_SetPage (Some r2) page = Returned r' /\
    Page r' = page /\ PageSize r' = size /\ filters r' = filters r.
Proof. simpl. eauto 10. Qed.

(** A new response holds no network: [Each] over it makes no call. *)
Lemma Each_on_new_Response {St} (callback : IterateItemFunc St) (s : St) :
  ListNetworks_Each (@ListNetworks_Response unit) callback s = Returned s /\
  invocations (@ListNetworks_Response unit) callback s = [].
Proof. done. Qed.

(** [ListRequest] fails on a nil request only, and hands a request back
    as it is. *)
Lemma ListRequest_nil_only {F} (ls : option (ListNetworks F)) :
  ((ListNetworks_ListRequest ls).2 <> None <-> ls = None) /\
  (ls <> None -> (ListNetworks_ListRequest ls).1 = ls).
Proof. destruct ls; simpl; split; try split; try done; intros []; done. Qed.
(** * The metrics of the loop *)

Section MeteredProperties.
Context (X : Collaborators).

Implicit Types (cfg : Config X) (w : World X) (s : LoopState X).

Ltac run_both :=
  unfold events, run_metered, metered_tick, seen_or_leave, emit, clean_up, measure,
    read, update, leave, updateDuration, updateLastTime;
  unfold issued, after_tick, outcome, run_tick, tick, scale_up, scale_down,
    listed, call, modify, get, continue;
  unfold mbind, mret, Metering_bind, Metering_ret, Tick_bind, Tick_ret.

Ltac split_branches :=
  repeat (case_match; simplify_eq/=);
  rewrite ?negb_true_iff, ?negb_false_iff in *.

Ltac among_events :=
  simpl; rewrite ?elem_of_cons, ?elem_of_nil;
  intuition (try discriminate; try congruence).

(** Leaving the metrics out of the metered body gives the body the other
    properties are about: same end, same variables, same calls. *)
Lemma metered_tick_erases cfg w s :
  (run_metered X cfg w s).1 = outcome X cfg w s /\
  g_vars X (run_metered X cfg w s).2 = after_tick X cfg w s /\
  outgoing (events X cfg w s) = issued X cfg w s.
Proof.
  run_both. destruct (observe X w) as [why|snap]; simpl; [done|].
  split_branches; done.
Qed.

(** X8.  The time stamp of the label [main] is set at the head of every
    iteration, but the duration of an iteration is reported only when the
    loop body runs to its end: an iteration left through [continue] (a
    failed listing, a scale-up, a failed scale-up) reports none. *)
Theorem main_duration_iff_completed cfg w s :
  (exists rest, events X cfg w s = Measured (SetLastTimestamp "main") :: rest) /\
  (Measured (ObserveDuration "main" loopStart) ∈ events X cfg w s <->
   outcome X cfg w s = Next ()) /\
  (Measured (SetLastDuration "main" loopStart) ∈ events X cfg w s <->
   outcome X cfg w s = Next ()).
Proof.
  run_both. destruct (observe X w) as [why|snap]; simpl.
  { split; [eauto|]. split; among_events. }
  split_branches; (split; [eauto|]); split; among_events.
Qed.

(** X9.  Every call of a planner is measured.  In the events of an
    iteration the time stamp of its label comes before the call, with
    nothing in between but, for the classification pass, the clean-up of
    the usage tracker; and the two duration updates of that label come
    right after the call, whatever the planner returns. *)
Theorem planner_calls_are_bracketed cfg w s c label start :
  label_of c = Some (label, start) ->
  Outgoing c ∈ events X cfg w s ->
  exists before after,
    events X cfg w s =
    before ++
    [Measured (SetLastTimestamp label)] ++ preparation c ++
    [Outgoing c;
     Measured (ObserveDuration label start); Measured (SetLastDuration label start)]
    ++ after.
Proof.
  intros Hlabel.
  destruct c; simpl in Hlabel; simplify_eq.
  - run_both. destruct (observe X w) as [why|snap]; simpl; [among_events|].
    split_branches; intros Hin; try solve [exfalso; revert Hin; among_events].
    all: exists [Measured (SetLastTimestamp "main");
                 Outgoing CallResetPodScheduledCondition];
         eexists; reflexivity.
  - run_both. destruct (observe X w) as [why|snap]; simpl; [among_events|].
    split_branches; intros Hin; try solve [exfalso; revert Hin; among_events].
    all: try (exists [Measured (SetLastTimestamp "main");
                      Outgoing CallResetPodScheduledCondition];
              eexists; reflexivity).
    all: exists [Measured (SetLastTimestamp "main");
                 Outgoing CallResetPodScheduledCondition;
                 Measured (SetLastTimestamp "scaleup"); Outgoing CallScaleUp;
                 Measured (ObserveDuration "scaleup" scaleUpStart);
                 Measured (SetLastDuration "scaleup" scaleUpStart)];
         eexists; reflexivity.
  - run_both. destruct (observe X w) as [why|snap]; simpl; [among_events|].
    split_branches; intros Hin; try solve [exfalso; revert Hin; among_events].
    all: try (exists [Measured (SetLastTimestamp "main");
                      Outgoing CallResetPodScheduledCondition;
                      Measured (SetLastTimestamp "findUnneeded");
                      CleanedUp;
                      Outgoing CallFindUnneededNodes;
                      Measured (ObserveDuration "findUnneeded" unneededStart);
                      Measured (SetLastDuration "findUnneeded" unneededStart)];
              eexists; reflexivity).
    all: exists [Measured (SetLastTimestamp "main");
                 Outgoing CallResetPodScheduledCondition;
                 Measured (SetLastTimestamp "scaleup"); Outgoing CallScaleUp;
                 Measured (ObserveDuration "scaleup" scaleUpStart);
                 Measured (SetLastDuration "scaleup" scaleUpStart);
                 Measured (SetLastTimestamp "findUnneeded");
                 CleanedUp;
                 Outgoing CallFindUnneededNodes;
                 Measured (ObserveDuration "findUnneeded" unneededStart);
                 Measured (SetLastDuration "findUnneeded" unneededStart)];
         eexists; reflexivity.
Qed.

(** X10.  No metric is updated for a planner that is not called. *)
Theorem planner_metrics_only_with_call cfg w s c label start :
  label_of c = Some (label, start) ->
  (Measured (SetLastTimestamp label) ∈ events X cfg w s \/
   Measured (ObserveDuration label start) ∈ events X cfg w s \/
   Measured (SetLastDuration label start) ∈ events X cfg w s) ->
  c ∈ issued X cfg w s.
Proof.
  intros Hlabel.
  destruct c; simpl in Hlabel; simplify_eq;
    run_both; (destruct (observe X w) as [why|snap]; simpl; [among_events|]);
    split_branches; among_events.
Qed.

End MeteredProperties.

(** * Start-up *)

Section StartupProperties.
Context (P : Platform).

Implicit Types (fl : Flags) (r : Ready P) (log : list Step).

Ltac run_boot :=
  unfold boot, startup, fatal_on, did, or_die;
  unfold mbind, mret, Boot_bind, Boot_ret.

Ltac boot_branches := repeat (case_match; simplify_eq/=).

(** X11.  A value of [--cloud-provider] other than [gce] and [aws] is not
    turned down: start-up succeeds all the same, and the loop gets a nil
    cloud provider.  With [gce] or [aws] it gets the provider built. *)
Theorem provider_nil_iff_unknown_flag fl r log :
  boot P fl = (inr r, log) ->
  (cloudProvider P r = None <->
   cloudProviderFlag fl <> "gce" /\ cloudProviderFlag fl <> "aws").
Proof.
  run_boot. boot_branches; intros; simplify_eq/=;
    repeat match goal with
    | H : bool_decide _ = true |- _ => apply bool_decide_eq_true in H
    | H : bool_decide _ = false |- _ => apply bool_decide_eq_false in H
    end;
    intuition congruence.
Qed.

(** X12.  A fatal message shows the error that caused it, except the three
    about the configuration file and the cloud managers: those are given
    the variable [err], which is nil at that point, and print no cause. *)
Theorem fatal_shows_cause_except fl format args log e :
  boot P fl = (inl (Fatal format args), log) ->
  ShownError e ∈ args ->
  (e = None <-> format ∈ formats_without_cause).
Proof.
  unfold formats_without_cause.
  run_boot. boot_branches; intros; simplify_eq/=;
    repeat match goal with
    | H : _ ∈ _ |- _ =>
      rewrite ?elem_of_cons, ?elem_of_nil in H;
      destruct H as [H|H]; simplify_eq/=
    | H : False |- _ => destruct H
    | H : _ \/ _ |- _ => destruct H; simplify_eq/=
    end;
    rewrite ?elem_of_cons, ?elem_of_nil;
    intuition (try discriminate; try congruence).
Qed.

Lemma boot_steps_planned fl :
  (boot P fl).2 `prefix_of` plan fl /\
  (forall r, (boot P fl).1 = inr r -> (boot P fl).2 = plan fl).
Proof.
  unfold plan. run_boot.
  boot_branches; (split; [by eexists | intros; simplify_eq/=; done]).
Qed.

(** X13.  What start-up does about the cloud is laid down by the flags: the
    steps taken are the first steps of the plan, and all of it when
    start-up succeeds. *)
Theorem steps_follow_plan fl :
  (boot P fl).2 `prefix_of` plan fl /\
  (forall r, (boot P fl).1 = inr r -> (boot P fl).2 = plan fl).
Proof.
  unfold plan. run_boot.
  boot_branches; (split; [by eexists | intros; simplify_eq/=; done]).
Qed.

(** X14.  Without [--cloud-config] no file is opened and no manager is made
    from a file, whatever the provider. *)
Theorem no_file_without_cloud_config fl :
  cloudConfig fl = "" ->
  forall step, step ∈ (boot P fl).2 ->
    step <> MadeGceManager true /\ step <> MadeAwsManager true /\
    forall path, step <> OpenedFile path.
Proof.
  intros Hnone step Hin.
  destruct (boot_steps_planned fl) as [[rest Hplan] _].
  assert (step ∈ plan fl) as Hplanned.
  { rewrite Hplan. apply elem_of_app. by left. }
  clear Hin Hplan. revert Hplanned. unfold plan. rewrite Hnone. simpl.
  repeat case_match; simpl; rewrite ?elem_of_cons, ?elem_of_nil;
    intuition (subst; try discriminate).
Qed.

End StartupProperties.

(** * The rest on the samples *)

Section Samples.
Import Demo Sample.

(** A value with a space in it prints like two values. *)
Example String_not_injective :
  MultiStringFlag_String (Some ["1:5:a b"]) = MultiStringFlag_String (Some ["1:5:a"; "b"]).
Proof. reflexivity. Qed.

Lemma String_injective_on_plain_witness :
  Forall plain ["1:5:pool-a"; "0:3:pool-b"] /\
  (MultiStringFlag_String (Some ["1:5:pool-a"; "0:3:pool-b"])
   = MultiStringFlag_String (Some ["1:5:pool-a"; "0:3:pool-b"]) ->
   ["1:5:pool-a"; "0:3:pool-b"] = ["1:5:pool-a"; "0:3:pool-b"]).
Proof.
  assert (Forall plain ["1:5:pool-a"; "0:3:pool-b"]) as Hplain
    by (repeat constructor; discriminate).
  split; [exact Hplain|].
  exact (String_injective_on_plain _ _ Hplain Hplain).
Defined.

Example Each_stops_at_second :
  invocations (ResponsePtr (Some three_networks)) stop_at_second 0%nat
  = [(ItemAt 0, true); (ItemAt 1, false)].
Proof. reflexivity. Qed.

Lemma Each_visits_all_witness :
  (forall inv n, (count_all inv n).1 = true) /\
  map fst (invocations (ResponsePtr (Some three_networks)) count_all 0%nat)
  = [ItemAt 0; ItemAt 1; ItemAt 2].
Proof.
  assert (forall inv n, (count_all inv n).1 = true) as Hall by reflexivity.
  split; [exact Hall|].
  exact (Each_visits_all three_networks count_all 0%nat Hall).
Defined.

Lemma ScaleUp_iff_pods_left_witness :
  observe cluster (pending 1000 ["batch"] nothing_fits (false, None))
    = inr (seen ["batch"]) /\
  (CallScaleUp ∈ issued cluster (flags true)
     (pending 1000 ["batch"] nothing_fits (false, None)) start <->
   unschedulablePodsToHelp cluster
     (triage cluster (flags true)
        (pending 1000 ["batch"] nothing_fits (false, None)) (seen ["batch"])) <> []).
Proof.
  split; [reflexivity|].
  exact (ScaleUp_iff_pods_left cluster (flags true)
           (pending 1000 ["batch"] nothing_fits (false, None)) start
           (seen ["batch"]) eq_refl).
Defined.

Lemma ScaleUp_error_changes_nothing_witness :
  observe cluster (pending 1000 ["batch"] nothing_fits (false, Some "quota"))
    = inr (seen ["batch"]) /\
  CallScaleUp ∈ issued cluster (flags true)
    (pending 1000 ["batch"] nothing_fits (false, Some "quota")) start /\
  outcome cluster (flags true)
    (pending 1000 ["batch"] nothing_fits (false, Some "quota")) start
    = Continue ScaleUpFailed /\
  after_tick cluster (flags true)
    (pending 1000 ["batch"] nothing_fits (false, Some "quota")) start = start /\
  issued cluster (flags true)
    (pending 1000 ["batch"] nothing_fits (false, Some "quota")) start
    = [CallResetPodScheduledCondition; CallScaleUp].
Proof.
  assert (CallScaleUp ∈ issued cluster (flags true)
            (pending 1000 ["batch"] nothing_fits (false, Some "quota")) start) as Hin
    by (vm_compute; repeat constructor).
  split; [reflexivity|]. split; [exact Hin|].
  exact (ScaleUp_error_changes_nothing cluster (flags true)
           (pending 1000 ["batch"] nothing_fits (false, Some "quota")) start
           (seen ["batch"]) "quota" eq_refl Hin eq_refl).
Defined.

Lemma variables_change_only_in_their_pass_witness :
  (CallFindUnneededNodes ∉ issued cluster (flags true)
     (pending 1000 ["batch"] nothing_fits (true, None)) start) /\
  unneededNodes cluster
    (after_tick cluster (flags true)
       (pending 1000 ["batch"] nothing_fits (true, None)) start)
  = unneededNodes cluster start.
Proof.
  assert (CallFindUnneededNodes ∉ issued cluster (flags true)
            (pending 1000 ["batch"] nothing_fits (true, None)) start) as Hnot.
  { replace (issued cluster (flags true)
               (pending 1000 ["batch"] nothing_fits (true, None)) start)
      with [CallResetPodScheduledCondition; CallScaleUp] by reflexivity.
    rewrite !elem_of_cons, elem_of_nil. intuition discriminate. }
  split; [exact Hnot|].
  exact (proj1 (proj2 (proj2 (variables_change_only_in_their_pass cluster (flags true)
                                _ start)) Hnot)).
Defined.

Lemma scale_down_disabled_is_inert_witness :
  scaleDownEnabled cluster flags_off = false /\
  (CallFindUnneededNodes ∉ issued cluster flags_off (quiet 1000) start) /\
  unneededNodes cluster (loop cluster flags_off start [quiet 1000; quiet 2000])
  = unneededNodes cluster start.
Proof.
  split; [reflexivity|]. split.
  - exact (proj1 (proj1 (scale_down_disabled_is_inert cluster flags_off eq_refl)
                    (quiet 1000) start)).
  - exact (proj1 (proj2 (scale_down_disabled_is_inert cluster flags_off eq_refl)
                    [quiet 1000; quiet 2000] start)).
Defined.

Lemma lastScaleDownFailedTrial_never_decreases_witness :
  lastScaleDownFailedTrial cluster start <= 0 /\
  chronological cluster 0
    [shrinking 1000 (ScaleDownNoNodeDeleted, None); quiet 1100] /\
  lastScaleDownFailedTrial cluster
    (loop cluster (flags true) start
       (take 0 [shrinking 1000 (ScaleDownNoNodeDeleted, None); quiet 1100]))
  <= lastScaleDownFailedTrial cluster
    (loop cluster (flags true) start
       (take 2 [shrinking 1000 (ScaleDownNoNodeDeleted, None); quiet 1100])).
Proof.
  assert (lastScaleDownFailedTrial cluster start <= 0) as Hstart by (simpl; lia).
  assert (chronological cluster 0
    [shrinking 1000 (ScaleDownNoNodeDeleted, None); quiet 1100]) as Hchrono
    by (unfold chronological; simpl; lia).
  split; [exact Hstart|]. split; [exact Hchrono|].
  apply (lastScaleDownFailedTrial_never_decreases cluster (flags true) 0 start _ 0 2
           Hstart Hchrono).
  lia.
Defined.

Lemma failed_trial_backs_off_witness :
  chronological cluster 0
    (shrinking 1000 (ScaleDownNoNodeDeleted, None) :: [] ++ [quiet 1020]) /\
  CallScaleDown ∈ issued cluster (flags true)
    (shrinking 1000 (ScaleDownNoNodeDeleted, None)) start /\
  Now cluster (quiet 1020) AtGateTrial
    - Now cluster (shrinking 1000 (ScaleDownNoNodeDeleted, None)) AtFailedTrial
    < scaleDownTrialInterval cluster (flags true) /\
  (CallScaleDown ∉ issued cluster (flags true) (quiet 1020)
     (loop cluster (flags true) start
        [shrinking 1000 (ScaleDownNoNodeDeleted, None)])).
Proof.
  assert (chronological cluster 0
    (shrinking 1000 (ScaleDownNoNodeDeleted, None) :: [] ++ [quiet 1020]))
    as Hchrono by (unfold chronological; simpl; lia).
  assert (CallScaleDown ∈ issued cluster (flags true)
    (shrinking 1000 (ScaleDownNoNodeDeleted, None)) start) as Hin
    by (vm_compute; repeat constructor).
  assert (Now cluster (quiet 1020) AtGateTrial
    - Now cluster (shrinking 1000 (ScaleDownNoNodeDeleted, None)) AtFailedTrial
    < scaleDownTrialInterval cluster (flags true)) as Hsoon by (simpl; lia).
  split; [exact Hchrono|]. split; [exact Hin|]. split; [exact Hsoon|].
  refine (failed_trial_backs_off cluster (flags true) 0 start
            (shrinking 1000 (ScaleDownNoNodeDeleted, None)) [] (quiet 1020)
            (seen []) ScaleDownNoNodeDeleted _ Hchrono eq_refl Hin eq_refl _ Hsoon).
  discriminate.
Defined.

Lemma planner_calls_are_bracketed_witness :
  label_of CallFindUnneededNodes = Some ("findUnneeded", unneededStart) /\
  Outgoing CallFindUnneededNodes ∈ events cluster (flags true) (quiet 1000) start /\
  exists before after,
    events cluster (flags true) (quiet 1000) start =
    before ++
    [Measured (SetLastTimestamp "findUnneeded")] ++ [CleanedUp] ++
    [Outgoing CallFindUnneededNodes;
     Measured (ObserveDuration "findUnneeded" unneededStart);
     Measured (SetLastDuration "findUnneeded" unneededStart)]
    ++ after.
Proof.
  assert (Outgoing CallFindUnneededNodes
          ∈ events cluster (flags true) (quiet 1000) start)
    as Hin by (vm_compute; repeat constructor).
  split; [reflexivity|]. split; [exact Hin|].
  exact (planner_calls_are_bracketed cluster (flags true) (quiet 1000) start
           CallFindUnneededNodes "findUnneeded" unneededStart eq_refl Hin).
Defined.

Lemma planner_metrics_only_with_call_witness :
  label_of CallScaleUp = Some ("scaleup", scaleUpStart) /\
  Measured (ObserveDuration "scaleup" scaleUpStart) ∈
    events cluster (flags true)
      (pending 1000 ["batch"] nothing_fits (false, Some "quota")) start /\
  CallScaleUp ∈ issued cluster (flags true)
    (pending 1000 ["batch"] nothing_fits (false, Some "quota")) start.
Proof.
  assert (Measured (ObserveDuration "scaleup" scaleUpStart) ∈
    events cluster (flags true)
      (pending 1000 ["batch"] nothing_fits (false, Some "quota")) start) as Hin
    by (vm_compute; repeat constructor).
  split; [reflexivity|]. split; [exact Hin|].
  exact (planner_metrics_only_with_call cluster (flags true) _ start
           CallScaleUp "scaleup" scaleUpStart eq_refl (or_intror (or_introl Hin))).
Defined.

(** The loop is started without a cloud provider for a mistyped flag. *)
Example mistyped_provider_boots :
  boot platform (flags_for "azure" "" ["1:5:pool"])
  = (inr (ready_with None), []).
Proof. reflexivity. Qed.

Lemma provider_nil_iff_unknown_flag_witness :
  boot platform (flags_for "azure" "" ["1:5:pool"])
  = (inr (ready_with None), []) /\
  (None = (None : option (CloudProvider platform)) <->
   "azure" <> "gce" /\ "azure" <> "aws").
Proof.
  split; [reflexivity|].
  exact (provider_nil_iff_unknown_flag platform (flags_for "azure" "" ["1:5:pool"])
           (ready_with None)
           [] eq_refl).
Defined.

Lemma fatal_shows_cause_except_witness :
  boot platform (flags_for "gce" "/missing" ["1:5:pool"])
  = (inl (Fatal "Couldn't open cloud provider configuration %s: %#v"
            [ShownString "/missing"; ShownError None]),
     [OpenedFile "/missing"]) /\
  ((None : option (Fault platform)) = None <->
   "Couldn't open cloud provider configuration %s: %#v" ∈ formats_without_cause).
Proof.
  split; [reflexivity|].
  refine (fatal_shows_cause_except platform (flags_for "gce" "/missing" ["1:5:pool"])
            "Couldn't open cloud provider configuration %s: %#v"
            [ShownString "/missing"; ShownError None] [OpenedFile "/missing"]
            None eq_refl _).
  apply list_elem_of_further, list_elem_of_here.
Defined.

Lemma steps_follow_plan_witness :
  (boot platform (flags_for "aws" "/etc/cloud.conf" ["1:5:pool"])).1
  = inr (ready_with (Some ("aws", ["1:5:pool"]))) /\
  (boot platform (flags_for "aws" "/etc/cloud.conf" ["1:5:pool"])).2
  = [OpenedFile "/etc/cloud.conf"; MadeAwsManager true; BuiltAwsProvider].
Proof.
  split; [reflexivity|].
  exact (proj2 (steps_follow_plan platform
                  (flags_for "aws" "/etc/cloud.conf" ["1:5:pool"])) _ eq_refl).
Defined.

Lemma no_file_without_cloud_config_witness :
  cloudConfig (flags_for "gce" "" ["1:5:pool"]) = "" /\
  MadeGceManager false ∈ (boot platform (flags_for "gce" "" ["1:5:pool"])).2 /\
  MadeGceManager false <> MadeGceManager true.
Proof.
  assert (MadeGceManager false ∈ (boot platform (flags_for "gce" "" ["1:5:pool"])).2)
    as Hin by (vm_compute; repeat constructor).
  split; [reflexivity|]. split; [exact Hin|].
  exact (proj1 (no_file_without_cloud_config platform (flags_for "gce" "" ["1:5:pool"])
                  eq_refl _ Hin)).
Defined.

End Samples.
